(** * pyairtable-go-shared: the rate-limiting middleware

    A shallow embedding of [middleware/ratelimit.go] together with the parts
    of the packages it calls ([cache], [errors], the claims accessor of
    [middleware/auth.go]) and of the libraries it is written against
    ([time], [strconv], [golang.org/x/time/rate], [gin]).

    Conventions.
    - Go's [int] and [int64] are 64-bit two's complement integers, carried
      as [Z]; arithmetic the source does on them is wrapped with [wrap64].
    - A [time.Time] is the number of nanoseconds since the zero time
      (January 1, year 1, UTC), carried as an unbounded [Z]; a
      [time.Duration] is an [int64] count of nanoseconds.
    - One clock reading per handled request: the successive [time.Now()]
      calls made while one request is handled return the same instant.
    - [c.Next()] is recorded on the context rather than run: the handlers
      further down the chain are not part of this package. *)

From Stdlib Require Import ZArith Lia Ascii.
From stdpp Require Import base option list strings gmap pretty.

Local Open Scope Z_scope.

(** ** Machine integers *)

Definition min_int64 : Z := -9223372036854775808.
Definition max_int64 : Z := 9223372036854775807.

Definition is_int64 (z : Z) : Prop := min_int64 <= z <= max_int64.

(** Two's complement wrap-around of a mathematical integer to 64 bits. *)
Definition wrap64 (z : Z) : Z := (z + 2 ^ 63) `mod` 2 ^ 64 - 2 ^ 63.

(** ** Package strconv *)

Module strconv.
(** [strconv.Itoa], [strconv.FormatInt(_, 10)] and the [%d] verb. *)
Definition Itoa (i : Z) : string := pretty i.
End strconv.

(** ** Package time *)

Module time.
Definition Duration : Type := Z.
Definition Time : Type := Z.

Definition Nanosecond : Duration := 1.
Definition Microsecond : Duration := 1000 * Nanosecond.
Definition Millisecond : Duration := 1000 * Microsecond.
Definition Second : Duration := 1000 * Millisecond.
Definition Minute : Duration := 60 * Second.
Definition Hour : Duration := 60 * Minute.

Definition minDuration : Duration := min_int64.
Definition maxDuration : Duration := max_int64.

(** Seconds from the zero time to the Unix epoch. *)
Definition unixToInternal : Z :=
  (1969 * 365 + 1969 `div` 4 - 1969 `div` 100 + 1969 `div` 400) * 86400.

Definition Unix (t : Time) : Z := t `div` Second - unixToInternal.

Definition Add (t : Time) (d : Duration) : Time := t + d.

(** [t.Sub(u)] saturates at the extreme durations. *)
Definition Sub (t u : Time) : Duration :=
  let d := t - u in
  if decide (maxDuration < d) then maxDuration
  else if decide (d < minDuration) then minDuration
  else d.

Definition Before (t u : Time) : bool := bool_decide (t < u).

(** [t.Truncate(d)]: round down to a multiple of [d] since the zero
    time; unchanged when [d <= 0]. *)
Definition Truncate (t : Time) (d : Duration) : Time :=
  if decide (d <= 0) then t else Add t (- (t `mod` d)).

(** [int(d.Seconds())]: the whole seconds of [d], truncated toward zero.
    [Seconds] is a float64 in Go; the quotient taken here is what the
    conversion yields for durations under 2^24 seconds. *)
Definition Seconds_int (d : Duration) : Z := d `quot` Second.

(** *** [Duration.String] *)

Definition digit (v : Z) : Ascii.ascii :=
  Ascii.ascii_of_N (48 + Z.to_N v).

(** The loop of [fmtFrac]: [prec] low digits of [v] go in front of [buf],
    trailing zeros left out. *)
Fixpoint fmtFrac_loop (prec : nat) (v : Z) (print : bool) (buf : string)
  : string * Z * bool :=
  match prec with
  | O => (buf, v, print)
  | S prec' =>
      let d := v `mod` 10 in
      let print := print || negb (d =? 0) in
      let buf := if print then String (digit d) buf else buf in
      fmtFrac_loop prec' (v `div` 10) print buf
  end.

Definition fmtFrac (buf : string) (v : Z) (prec : nat) : string * Z :=
  let '(buf, v, print) := fmtFrac_loop prec v false buf in
  (if print then String "."%char buf else buf, v).

Definition fmtInt (buf : string) (v : Z) : string := pretty v +:+ buf.

Definition String (d : Duration) : string :=
  let neg := bool_decide (d < 0) in
  let u := if neg then - d else d in
  let body :=
    if decide (u < Second) then
      if decide (u = 0) then "0s"
      else if decide (u < Microsecond) then fmtInt "ns" u
      else if decide (u < Millisecond) then
        let '(buf, u) := fmtFrac "µs" u 3 in fmtInt buf u
      else
        let '(buf, u) := fmtFrac "ms" u 6 in fmtInt buf u
    else
      let '(buf, u) := fmtFrac "s" u 9 in
      let buf := fmtInt buf (u `mod` 60) in
      let u := u `div` 60 in
      if decide (0 < u) then
        let buf := fmtInt (String "m"%char buf) (u `mod` 60) in
        let u := u `div` 60 in
        if decide (0 < u) then fmtInt (String "h"%char buf) u else buf
      else buf in
  if neg then String "-"%char body else body.
End time.

(** ** Package golang.org/x/time/rate

    The limiter the token-bucket middleware is built on.  The library keeps
    the token count as a float64; a whole-number rate [limit] accrues
    exactly [limit] billionths of a token per nanosecond, so the count is
    kept here in billionths of a token, as an integer, and the library's
    arithmetic is carried out exactly.  A [Limit] converted from an [int]
    is never [Inf], so that branch of [reserveN] is left out.  A new
    limiter holds a full bucket; releases of the library that start it
    empty at the zero time fill it on the first [advance], for any rate
    of at least one event a second. *)

Module rate.
Definition InfDuration : time.Duration := time.maxDuration.

(** Billionths of a token in one token. *)
Definition token : Z := 1000000000.

Record Limiter := {
  limit : Z;
  burst : Z;
  tokens : Z;
  last : time.Time
}.

Definition NewLimiter (r : Z) (b : Z) : Limiter :=
  {| limit := r; burst := b; tokens := b * token; last := 0 |}.

Definition durationFromTokens (limit : Z) (tokens : Z) : time.Duration :=
  if decide (limit <= 0) then InfDuration
  else
    let duration := tokens `quot` limit in
    if decide (max_int64 < duration) then InfDuration else duration.

Definition tokensFromDuration (limit : Z) (d : time.Duration) : Z :=
  if decide (limit <= 0) then 0 else d * limit.

Definition advance (lim : Limiter) (t : time.Time) : Z :=
  let last := if time.Before t (last lim) then t else last lim in
  let elapsed := time.Sub t last in
  let delta := tokensFromDuration (limit lim) elapsed in
  let tokens := tokens lim + delta in
  if decide (burst lim * token < tokens) then burst lim * token else tokens.

Record Reservation := {
  ok : bool;
  timeToAct : time.Time
}.

Definition reserveN (lim : Limiter) (t : time.Time) (n : Z)
    (maxFutureReserve : time.Duration) : Limiter * Reservation :=
  if decide (limit lim = 0) then
    if decide (n <= burst lim) then
      ({| limit := limit lim; burst := burst lim - n;
          tokens := tokens lim; last := last lim |},
       {| ok := true; timeToAct := t |})
    else (lim, {| ok := false; timeToAct := t |})
  else
    let tokens := advance lim t - n * token in
    let waitDuration :=
      if decide (tokens < 0) then durationFromTokens (limit lim) (- tokens)
      else 0 in
    if bool_decide (n <= burst lim)
       && bool_decide (waitDuration <= maxFutureReserve) then
      ({| limit := limit lim; burst := burst lim;
          tokens := tokens; last := t |},
       {| ok := true; timeToAct := time.Add t waitDuration |})
    else (lim, {| ok := false; timeToAct := 0 |}).

(** [lim.Allow()] at clock reading [now]. *)
Definition Allow (lim : Limiter) (now : time.Time) : Limiter * bool :=
  let '(lim, r) := reserveN lim now 1 0 in (lim, ok r).

(** [lim.Reserve()] at clock reading [now]. *)
Definition Reserve (lim : Limiter) (now : time.Time)
  : Limiter * Reservation :=
  reserveN lim now 1 InfDuration.

(** [r.Delay()] at clock reading [now]. *)
Definition Delay (r : Reservation) (now : time.Time) : time.Duration :=
  if negb (ok r) then InfDuration
  else
    let delay := time.Sub (timeToAct r) now in
    if decide (delay < 0) then 0 else delay.
End rate.

(** ** Package errors *)

Module errors.
Record Error := {
  Code : string;
  Message : string;
  Details : gmap string Z;
  HTTPCode : Z;
  Cause : option string
}.

Definition ErrCodeRateLimited : string := "RATE_LIMITED".

Definition NewRateLimitedError (retryAfter : Z) : Error :=
  {| Code := ErrCodeRateLimited;
     Message := "Rate limit exceeded";
     HTTPCode := 429;
     Details := {[ "retry_after" := retryAfter ]};
     Cause := None |}.
End errors.

(** ** Package cache *)

Module cache.
(** A Go [error]: [None] is [nil]. *)
Definition error : Type := option string.

(** What [breaker.Execute] hands back as an [interface{}]. *)
Inductive value :=
| Int64 (n : Z)
| Other (type_name : string).

(** The Redis server behind its circuit breaker, as the client sees it:
    [R] is the state of server and breaker, [ExecIncrBy] is
    [breaker.Execute] around [redis.IncrBy(..).Result()] and [ExecExpire]
    is [breaker.Execute] around [redis.Expire(..).Err()]. *)
Class Backend (R : Type) := {
  ExecIncrBy : R → string → Z → R * (value * error);
  ExecExpire : R → string → time.Duration → R * error
}.

(** A [*cache.Client]; the state it acts on is the backend's. *)
Record Client := { Addr : string }.

Section Client.
Context {R : Type} `{!Backend R}.

Definition Expire (r : R) (key : string) (expiration : time.Duration)
  : R * error :=
  let '(r, err) := ExecExpire r key expiration in
  match err with
  | Some e => (r, Some ("failed to set expiration: " +:+ e))
  | None => (r, None)
  end.

Definition IncrementBy (r : R) (key : string) (delta : Z)
  : R * (Z * error) :=
  let '(r, (result, err)) := ExecIncrBy r key delta in
  match err with
  | Some e => (r, (0, Some ("failed to increment by: " +:+ e)))
  | None =>
      match result with
      | Int64 count => (r, (count, None))
      | Other ty => (r, (0, Some ("unexpected result type: " +:+ ty)))
      end
  end.
End Client.
End cache.

(** ** middleware/auth.go: the claims carried by a request *)

Record JWTClaims := {
  UserID : string;
  TenantID : string;
  Email : string;
  Roles : list string;
  Scopes : list string
}.

(** ** Package gin: the request context *)

Module gin.
Record Context := {
  (** the request: [c.Request.URL.Path], [c.ClientIP()] and the values
      of [c.Request.Context()] the accessors of auth.go look up *)
  Path : string;
  ClientIP : string;
  claims : option JWTClaims;
  user_id : option string;
  tenant_id : option string;
  (** the response under construction *)
  Headers : gmap string string;
  Status : option Z;
  Body : option errors.Error;
  Aborted : bool;
  (** how many times the rest of the chain was run by [c.Next()] *)
  Nexts : nat
}.

Definition Header (c : Context) (key value : string) : Context :=
  {| Path := Path c; ClientIP := ClientIP c; claims := claims c;
     user_id := user_id c; tenant_id := tenant_id c;
     Headers := if decide (value = "") then delete key (Headers c)
                else <[key := value]> (Headers c);
     Status := Status c; Body := Body c; Aborted := Aborted c;
     Nexts := Nexts c |}.

(** [c.JSON(code, obj)]: the status, the content type unless one is set
    already, and the body. *)
Definition JSON (c : Context) (code : Z) (obj : errors.Error) : Context :=
  {| Path := Path c; ClientIP := ClientIP c; claims := claims c;
     user_id := user_id c; tenant_id := tenant_id c;
     Headers := match Headers c !! "Content-Type" with
                | Some _ => Headers c
                | None =>
                    <["Content-Type" := "application/json; charset=utf-8"]>
                      (Headers c)
                end;
     Status := Some code; Body := Some obj; Aborted := Aborted c;
     Nexts := Nexts c |}.

Definition Abort (c : Context) : Context :=
  {| Path := Path c; ClientIP := ClientIP c; claims := claims c;
     user_id := user_id c; tenant_id := tenant_id c;
     Headers := Headers c;
     Status := Status c; Body := Body c; Aborted := true;
     Nexts := Nexts c |}.

Definition Next (c : Context) : Context :=
  {| Path := Path c; ClientIP := ClientIP c; claims := claims c;
     user_id := user_id c; tenant_id := tenant_id c;
     Headers := Headers c;
     Status := Status c; Body := Body c; Aborted := Aborted c;
     Nexts := S (Nexts c) |}.
End gin.

Definition StatusTooManyRequests : Z := 429.

(** ** middleware/auth.go: context accessors *)

Definition GetClaimsFromContext (c : gin.Context) : option JWTClaims :=
  gin.claims c.

Definition GetUserIDFromContext (c : gin.Context) : string :=
  match gin.user_id c with Some userID => userID | None => "" end.

Definition GetTenantIDFromContext (c : gin.Context) : string :=
  match gin.tenant_id c with Some tenantID => tenantID | None => "" end.

(** ** middleware/ratelimit.go *)

Record RateLimitConfig := {
  RequestsPerSecond : Z;
  BurstSize : Z;
  WindowSize : time.Duration;
  MaxRequests : Z;
  KeyFunc : option (gin.Context → string);
  SkipPaths : list string;
  UseRedis : bool;
  RedisClient : option cache.Client
}.

Definition DefaultKeyFunc (c : gin.Context) : string := gin.ClientIP c.

Definition UserKeyFunc (c : gin.Context) : string :=
  let userID := GetUserIDFromContext c in
  if decide (userID ≠ "") then "user:" +:+ userID else gin.ClientIP c.

Definition TenantKeyFunc (c : gin.Context) : string :=
  let tenantID := GetTenantIDFromContext c in
  if decide (tenantID ≠ "") then "tenant:" +:+ tenantID else gin.ClientIP c.

(** The loop over [config.SkipPaths] that opens every handler: does some
    entry equal the request path? *)
Fixpoint skipsPath (SkipPaths : list string) (requestPath : string) : bool :=
  match SkipPaths with
  | [] => false
  | path :: rest =>
      if decide (requestPath = path) then true else skipsPath rest requestPath
  end.

(** What constructing a middleware, or running a handler that constructs
    one, comes to: a value, or a panic with its message. *)
Inductive outcome (A : Type) : Type :=
| Done (a : A)
| Panic (msg : string).
Arguments Done {A} a.
Arguments Panic {A} msg.

(** *** TokenBucketRateLimit *)

(** The handler returned by [TokenBucketRateLimit]: [KeyFunc] is the key
    function after defaulting, [limiters] the map the closure captured. *)
Definition TokenBucketRateLimit_handler
    (config : RateLimitConfig) (KeyFunc : gin.Context → string)
    (limiters : gmap string rate.Limiter) (now : time.Time) (c : gin.Context)
  : gmap string rate.Limiter * gin.Context :=
  if skipsPath (SkipPaths config) (gin.Path c) then (limiters, gin.Next c)
  else
    let key := KeyFunc c in
    let '(limiter, limiters) :=
      match limiters !! key with
      | Some limiter => (limiter, limiters)
      | None =>
          let limiter :=
            rate.NewLimiter (RequestsPerSecond config) (BurstSize config) in
          (limiter, <[key := limiter]> limiters)
      end in
    let '(limiter, allowed) := rate.Allow limiter now in
    let limiters := <[key := limiter]> limiters in
    if negb allowed then
      let c := gin.Header c "X-RateLimit-Limit"
                 (strconv.Itoa (RequestsPerSecond config)) in
      let c := gin.Header c "X-RateLimit-Remaining" "0" in
      let c := gin.Header c "X-RateLimit-Reset"
                 (strconv.Itoa (time.Unix (time.Add now time.Second))) in
      let '(limiter, reservation) := rate.Reserve limiter now in
      let limiters := <[key := limiter]> limiters in
      let retryAfter :=
        wrap64 (time.Seconds_int (rate.Delay reservation now) + 1) in
      let c := gin.JSON c StatusTooManyRequests
                 (errors.NewRateLimitedError retryAfter) in
      (limiters, gin.Abort c)
    else
      let c := gin.Header c "X-RateLimit-Limit"
                 (strconv.Itoa (RequestsPerSecond config)) in
      (limiters, gin.Next c).

(** [TokenBucketRateLimit(config)]: the fresh limiter map and the handler
    closed over it. *)
Definition TokenBucketRateLimit (config : RateLimitConfig)
  : gmap string rate.Limiter *
    (gmap string rate.Limiter → time.Time → gin.Context →
     gmap string rate.Limiter * gin.Context) :=
  let limiters : gmap string rate.Limiter := ∅ in
  let KeyFunc :=
    match KeyFunc config with None => DefaultKeyFunc | Some f => f end in
  (limiters, TokenBucketRateLimit_handler config KeyFunc).

Section Distributed.
Context {R : Type} `{!cache.Backend R}.

(** *** SlidingWindowRateLimit *)

(** The handler returned by [SlidingWindowRateLimit]; [KeyFunc] and
    [WindowSize] are the fields of [config] after defaulting. *)
Definition SlidingWindowRateLimit_handler
    (config : RateLimitConfig) (KeyFunc : gin.Context → string)
    (WindowSize : time.Duration)
    (r : R) (now : time.Time) (c : gin.Context) : R * gin.Context :=
  if skipsPath (SkipPaths config) (gin.Path c) then (r, gin.Next c)
  else
    let key := "ratelimit:" +:+ KeyFunc c in
    let window := time.Truncate now WindowSize in
    let countKey := key +:+ ":" +:+ strconv.Itoa (time.Unix window) in
    let '(r, (count, err)) := cache.IncrementBy r countKey 1 in
    match err with
    | Some _ => (r, gin.Next c)
    | None =>
        let r :=
          if decide (count = 1)
          then fst (cache.Expire r countKey WindowSize) else r in
        if decide (MaxRequests config < count) then
          let remaining := 0 in
          let reset := time.Unix (time.Add window WindowSize) in
          let c := gin.Header c "X-RateLimit-Limit"
                     (strconv.Itoa (MaxRequests config)) in
          let c := gin.Header c "X-RateLimit-Remaining"
                     (strconv.Itoa remaining) in
          let c := gin.Header c "X-RateLimit-Reset" (strconv.Itoa reset) in
          let c := gin.Header c "X-RateLimit-Window"
                     (time.String WindowSize) in
          let retryAfter :=
            wrap64 (time.Seconds_int
                      (time.Sub (time.Add window WindowSize) now) + 1) in
          let c := gin.JSON c StatusTooManyRequests
                     (errors.NewRateLimitedError retryAfter) in
          (r, gin.Abort c)
        else
          let remaining := wrap64 (MaxRequests config - count) in
          let reset := time.Unix (time.Add window WindowSize) in
          let c := gin.Header c "X-RateLimit-Limit"
                     (strconv.Itoa (MaxRequests config)) in
          let c := gin.Header c "X-RateLimit-Remaining"
                     (strconv.Itoa remaining) in
          let c := gin.Header c "X-RateLimit-Reset" (strconv.Itoa reset) in
          let c := gin.Header c "X-RateLimit-Window"
                     (time.String WindowSize) in
          (r, gin.Next c)
    end.

Definition SlidingWindowRateLimit (config : RateLimitConfig)
  : outcome (R → time.Time → gin.Context → R * gin.Context) :=
  match RedisClient config with
  | None =>
      Panic "Redis client is required for sliding window rate limiting"
  | Some _ =>
      let KeyFunc :=
        match KeyFunc config with None => DefaultKeyFunc | Some f => f end in
      let WindowSize :=
        if decide (WindowSize config = 0) then time.Minute
        else WindowSize config in
      Done (SlidingWindowRateLimit_handler config KeyFunc WindowSize)
  end.

(** *** FixedWindowRateLimit *)

Definition FixedWindowRateLimit_handler
    (config : RateLimitConfig) (KeyFunc : gin.Context → string)
    (WindowSize : time.Duration)
    (r : R) (now : time.Time) (c : gin.Context) : R * gin.Context :=
  if skipsPath (SkipPaths config) (gin.Path c) then (r, gin.Next c)
  else
    let key := "ratelimit:" +:+ KeyFunc c in
    let window := time.Truncate now WindowSize in
    let windowKey := key +:+ ":" +:+ strconv.Itoa (time.Unix window) in
    let '(r, (count, err)) := cache.IncrementBy r windowKey 1 in
    match err with
    | Some _ => (r, gin.Next c)
    | None =>
        let r :=
          if decide (count = 1)
          then fst (cache.Expire r windowKey WindowSize) else r in
        if decide (MaxRequests config < count) then
          let remaining := 0 in
          let reset := time.Unix (time.Add window WindowSize) in
          let c := gin.Header c "X-RateLimit-Limit"
                     (strconv.Itoa (MaxRequests config)) in
          let c := gin.Header c "X-RateLimit-Remaining"
                     (strconv.Itoa remaining) in
          let c := gin.Header c "X-RateLimit-Reset" (strconv.Itoa reset) in
          let c := gin.Header c "X-RateLimit-Window"
                     (time.String WindowSize) in
          let retryAfter :=
            wrap64 (time.Seconds_int
                      (time.Sub (time.Add window WindowSize) now) + 1) in
          let c := gin.JSON c StatusTooManyRequests
                     (errors.NewRateLimitedError retryAfter) in
          (r, gin.Abort c)
        else
          let remaining := wrap64 (MaxRequests config - count) in
          let reset := time.Unix (time.Add window WindowSize) in
          let c := gin.Header c "X-RateLimit-Limit"
                     (strconv.Itoa (MaxRequests config)) in
          let c := gin.Header c "X-RateLimit-Remaining"
                     (strconv.Itoa remaining) in
          let c := gin.Header c "X-RateLimit-Reset" (strconv.Itoa reset) in
          let c := gin.Header c "X-RateLimit-Window"
                     (time.String WindowSize) in
          (r, gin.Next c)
    end.

Definition FixedWindowRateLimit (config : RateLimitConfig)
  : outcome (R → time.Time → gin.Context → R * gin.Context) :=
  match RedisClient config with
  | None => Panic "Redis client is required for fixed window rate limiting"
  | Some _ =>
      let KeyFunc :=
        match KeyFunc config with None => DefaultKeyFunc | Some f => f end in
      let WindowSize :=
        if decide (WindowSize config = 0) then time.Minute
        else WindowSize config in
      Done (FixedWindowRateLimit_handler config KeyFunc WindowSize)
  end.

(** *** PerUserRateLimit *)

(** The zero value of [RateLimitConfig] ([var selectedConfig]). *)
Definition zeroConfig : RateLimitConfig :=
  {| RequestsPerSecond := 0; BurstSize := 0; WindowSize := 0;
     MaxRequests := 0; KeyFunc := None; SkipPaths := [];
     UseRedis := false; RedisClient := None |}.

(** The loop over [claims.Roles]: the policy of the first role that has
    one, else [selectedConfig] as it was. *)
Fixpoint rolesLoop (config : gmap string RateLimitConfig)
    (roles : list string) (selectedConfig : RateLimitConfig)
  : RateLimitConfig :=
  match roles with
  | [] => selectedConfig
  | role :: rest =>
      match config !! role with
      | Some cfg => cfg
      | None => rolesLoop config rest selectedConfig
      end
  end.

(** The policy the handler of [PerUserRateLimit] settles on for a
    request, up to its "Apply the selected rate limit" step. *)
Definition selectConfig (config : gmap string RateLimitConfig)
    (defaultConfig : RateLimitConfig) (c : gin.Context) : RateLimitConfig :=
  let claims := GetClaimsFromContext c in
  let selectedConfig :=
    match claims with
    | Some claims => rolesLoop config (Roles claims) zeroConfig
    | None => zeroConfig
    end in
  if decide (MaxRequests selectedConfig = 0) then defaultConfig
  else selectedConfig.

(** The handler returned by [PerUserRateLimit]: it builds the selected
    limiter anew on each request and runs it once. *)
Definition PerUserRateLimit_handler (config : gmap string RateLimitConfig)
    (defaultConfig : RateLimitConfig)
    (r : R) (now : time.Time) (c : gin.Context) : outcome (R * gin.Context) :=
  let selectedConfig := selectConfig config defaultConfig c in
  if UseRedis selectedConfig then
    match FixedWindowRateLimit selectedConfig with
    | Panic msg => Panic msg
    | Done handler => Done (handler r now c)
    end
  else
    let '(limiters, handler) := TokenBucketRateLimit selectedConfig in
    let '(_, c) := handler limiters now c in
    Done (r, c).

(** [PerUserRateLimit(config, defaultConfig)] only builds the closure. *)
Definition PerUserRateLimit (config : gmap string RateLimitConfig)
    (defaultConfig : RateLimitConfig)
  : outcome (R → time.Time → gin.Context → outcome (R * gin.Context)) :=
  Done (PerUserRateLimit_handler config defaultConfig).
End Distributed.


(** ** Running the middleware *)

(** A handler fed a sequence of requests, each with the clock reading at
    which it is handled; the state (limiter map or store) is carried from
    one request to the next, the contexts it leaves are collected. *)
Fixpoint serve {S : Type}
    (handler : S → time.Time → gin.Context → S * gin.Context)
    (s : S) (requests : list (time.Time * gin.Context))
  : S * list gin.Context :=
  match requests with
  | [] => (s, [])
  | (now, c) :: rest =>
      let '(s, c') := handler s now c in
      let '(s, cs) := serve handler s rest in
      (s, c' :: cs)
  end.

(** The same for a handler that may panic; a panic ends the run. *)
Fixpoint serve_outcome {S : Type}
    (handler : S → time.Time → gin.Context → outcome (S * gin.Context))
    (s : S) (requests : list (time.Time * gin.Context))
  : outcome (S * list gin.Context) :=
  match requests with
  | [] => Done (s, [])
  | (now, c) :: rest =>
      match handler s now c with
      | Panic msg => Panic msg
      | Done (s, c') =>
          match serve_outcome handler s rest with
          | Panic msg => Panic msg
          | Done (s, cs) => Done (s, c' :: cs)
          end
      end
  end.

(** An incoming request as the router hands it to the first handler. *)
Definition request (path ip : string) (claims : option JWTClaims)
  : gin.Context :=
  {| gin.Path := path; gin.ClientIP := ip; gin.claims := claims;
     gin.user_id := None; gin.tenant_id := None;
     gin.Headers := ∅; gin.Status := None; gin.Body := None;
     gin.Aborted := false; gin.Nexts := 0 |}.

(** The handler let the request through: it ran the rest of the chain
    once and wrote no status or body. *)
Definition admitted (c c' : gin.Context) : Prop :=
  gin.Nexts c' = S (gin.Nexts c) ∧ gin.Aborted c' = gin.Aborted c ∧
  gin.Status c' = gin.Status c ∧ gin.Body c' = gin.Body c.

(** The handler turned the request away: 429, chain aborted, the rest of
    the chain not run. *)
Definition rejected (c c' : gin.Context) : Prop :=
  gin.Nexts c' = gin.Nexts c ∧ gin.Aborted c' = true ∧
  gin.Status c' = Some StatusTooManyRequests.

#[global] Instance Error_eq_dec : EqDecision errors.Error.
Proof. solve_decision. Defined.

#[global] Instance admitted_dec (c c' : gin.Context) :
  Decision (admitted c c').
Proof. unfold admitted. apply _. Defined.

#[global] Instance rejected_dec (c c' : gin.Context) :
  Decision (rejected c c').
Proof. unfold rejected. apply _. Defined.

(** [details.retry_after] of the body written to the context. *)
Definition retryAfterOf (c : gin.Context) : option Z :=
  match gin.Body c with
  | Some e => errors.Details e !! "retry_after"
  | None => None
  end.

(** The key function and the window a constructor leaves in its copy of
    [config] once the nil and zero fields are defaulted. *)
Definition keyFuncOf (config : RateLimitConfig) : gin.Context → string :=
  match KeyFunc config with None => DefaultKeyFunc | Some f => f end.

Definition windowSizeOf (config : RateLimitConfig) : time.Duration :=
  if decide (WindowSize config = 0) then time.Minute else WindowSize config.

(** The counter key of a request handled at [now] under [config]. *)
Definition counterKey (config : RateLimitConfig) (now : time.Time)
    (c : gin.Context) : string :=
  let key := "ratelimit:" +:+ keyFuncOf config c in
  let window := time.Truncate now (windowSizeOf config) in
  key +:+ ":" +:+ strconv.Itoa (time.Unix window).

(** The four headers a distributed handler writes once the count is in. *)
Definition windowHeaders (config : RateLimitConfig)
    (WindowSize : time.Duration) (window : time.Time) (remaining : Z)
    (c : gin.Context) : gin.Context :=
  let reset := time.Unix (time.Add window WindowSize) in
  let c := gin.Header c "X-RateLimit-Limit"
             (strconv.Itoa (MaxRequests config)) in
  let c := gin.Header c "X-RateLimit-Remaining" (strconv.Itoa remaining) in
  let c := gin.Header c "X-RateLimit-Reset" (strconv.Itoa reset) in
  gin.Header c "X-RateLimit-Window" (time.String WindowSize).

(** The limiter the token-bucket handler keeps for a key under [config],
    holding [tokens] billionths of a token and last updated at [last]. *)
Definition bucketOf (config : RateLimitConfig) (tokens : Z)
    (last : time.Time) : rate.Limiter :=
  {| rate.limit := RequestsPerSecond config; rate.burst := BurstSize config;
     rate.tokens := tokens; rate.last := last |}.

(** The context the token-bucket handler leaves when it lets [c] through. *)
Definition passedBy (config : RateLimitConfig) (c : gin.Context)
  : gin.Context :=
  gin.Next (gin.Header c "X-RateLimit-Limit"
              (strconv.Itoa (RequestsPerSecond config))).

(** ** An in-memory counter store

    Counters with the expiry last set on them, and a switch for the store
    being out of reach: what the handlers are run against on concrete
    requests. *)

Record MemStore := {
  counters : gmap string Z;
  expiry : gmap string time.Duration;
  reachable : bool
}.

Definition MemStore_IncrBy (r : MemStore) (key : string) (delta : Z)
  : MemStore * (cache.value * cache.error) :=
  if reachable r then
    let n := default 0 (counters r !! key) + delta in
    if decide (is_int64 n) then
      ({| counters := <[key := n]> (counters r); expiry := expiry r;
          reachable := reachable r |}, (cache.Int64 n, None))
    else
      (r, (cache.Int64 0, Some "ERR increment or decrement would overflow"))
  else (r, (cache.Int64 0, Some "dial tcp: connection refused")).

Definition MemStore_Expire (r : MemStore) (key : string) (d : time.Duration)
  : MemStore * cache.error :=
  if reachable r then
    ({| counters := counters r; expiry := <[key := d]> (expiry r);
        reachable := reachable r |}, None)
  else (r, Some "dial tcp: connection refused").

#[global] Instance MemStore_backend : cache.Backend MemStore :=
  {| cache.ExecIncrBy := MemStore_IncrBy;
     cache.ExecExpire := MemStore_Expire |}.

Definition emptyStore : MemStore :=
  {| counters := ∅; expiry := ∅; reachable := true |}.

Definition downStore : MemStore :=
  {| counters := ∅; expiry := ∅; reachable := false |}.


(** ** Sample policies and requests *)

Definition localRedis : cache.Client := {| cache.Addr := "localhost:6379" |}.

(** Two requests a window, counted in the shared store. *)
Definition windowPolicy : RateLimitConfig :=
  {| RequestsPerSecond := 0; BurstSize := 0; WindowSize := 0;
     MaxRequests := 2; KeyFunc := None; SkipPaths := ["/health"];
     UseRedis := true; RedisClient := Some localRedis |}.


(** The shared store selected, no client given. *)
Definition noStorePolicy : RateLimitConfig :=
  {| RequestsPerSecond := 0; BurstSize := 0; WindowSize := time.Minute;
     MaxRequests := 10; KeyFunc := None; SkipPaths := ["/health"];
     UseRedis := true; RedisClient := None |}.

(** A bucket of one token, refilled at one token a second. *)
Definition bucketPolicy : RateLimitConfig :=
  {| RequestsPerSecond := 1; BurstSize := 1; WindowSize := 0;
     MaxRequests := 0; KeyFunc := None; SkipPaths := ["/health"];
     UseRedis := false; RedisClient := None |}.


(** A token-bucket policy for administrators: its window fields are left
    at zero. *)
Definition adminPolicy : RateLimitConfig :=
  {| RequestsPerSecond := 100; BurstSize := 200; WindowSize := 0;
     MaxRequests := 0; KeyFunc := None; SkipPaths := [];
     UseRedis := false; RedisClient := None |}.

Definition adminClaims : JWTClaims :=
  {| UserID := "u1"; TenantID := "t1"; Email := "root@example.com";
     Roles := ["admin"]; Scopes := [] |}.

(** 2025-11-29 08:00:00 UTC, the start of a minute. *)
Definition sampleNow : time.Time := 63900000000 * time.Second.

Definition sampleRequest : gin.Context := request "/api" "1.2.3.4" None.
Definition healthRequest : gin.Context := request "/health" "1.2.3.4" None.
Definition adminRequest : gin.Context :=
  request "/api" "1.2.3.4" (Some adminClaims).


(** ** middleware/auth.go: role and scope checks *)

(** The first loop of [hasAnyRole] and [hasAnyScope]: every entry of the
    caller's list is mapped to [true]. *)
Fixpoint markAll (entries : list string) (m : gmap string bool)
  : gmap string bool :=
  match entries with
  | [] => m
  | entry :: rest => markAll rest (<[entry := true]> m)
  end.

(** The second loop: the first required entry the map holds [true] for
    ends the search; a missing key reads as [false]. *)
Fixpoint anyMarked (m : gmap string bool) (required : list string) : bool :=
  match required with
  | [] => false
  | entry :: rest =>
      if default false (m !! entry) then true else anyMarked m rest
  end.

Definition hasAnyRole (userRoles requiredRoles : list string) : bool :=
  let roleMap := markAll userRoles ∅ in
  anyMarked roleMap requiredRoles.

Definition hasAnyScope (userScopes requiredScopes : list string) : bool :=
  let scopeMap := markAll userScopes ∅ in
  anyMarked scopeMap requiredScopes.

Definition StatusUnauthorized : Z := 401.
Definition StatusForbidden : Z := 403.

(** Package errors: the two constructors [RequireRole] uses. *)
Definition ErrCodeUnauthorized : string := "UNAUTHORIZED".
Definition ErrCodeForbidden : string := "FORBIDDEN".

Definition NewUnauthorizedError (message : string) : errors.Error :=
  {| errors.Code := ErrCodeUnauthorized; errors.Message := message;
     errors.Details := ∅; errors.HTTPCode := StatusUnauthorized;
     errors.Cause := None |}.

Definition NewForbiddenError (message : string) : errors.Error :=
  {| errors.Code := ErrCodeForbidden; errors.Message := message;
     errors.Details := ∅; errors.HTTPCode := StatusForbidden;
     errors.Cause := None |}.

(** The handler returned by [RequireRole(roles...)]. *)
Definition RequireRole (roles : list string) (c : gin.Context)
  : gin.Context :=
  match GetClaimsFromContext c with
  | None =>
      gin.Abort (gin.JSON c StatusUnauthorized
                   (NewUnauthorizedError "Missing authentication"))
  | Some claims =>
      if negb (hasAnyRole (Roles claims) roles) then
        gin.Abort (gin.JSON c StatusForbidden
                     (NewForbiddenError "Insufficient role permissions"))
      else gin.Next c
  end.

(** ** The context helpers of package middleware

    A [context.Context] as the chain of [WithValue] calls that built it,
    newest first.  A key is compared with its type: the untyped string
    keys of auth.go and the [contextKey] keys of the helpers are
    different keys even when they spell the same. *)

Module context.
Inductive key :=
| StringKey (s : string)
| ContextKey (s : string).

Inductive value :=
| Str (s : string)
| Claims (claims : JWTClaims).

#[global] Instance key_eq_dec : EqDecision key.
Proof. solve_decision. Defined.

Definition Context : Type := list (key * value).

Definition Background : Context := [].

Definition WithValue (parent : Context) (k : key) (v : value) : Context :=
  (k, v) :: parent.

Fixpoint Value (ctx : Context) (k : key) : option value :=
  match ctx with
  | [] => None
  | (k', v) :: parent => if decide (k' = k) then Some v else Value parent k
  end.
End context.

Definition RequestIDKey : context.key := context.ContextKey "request_id".
Definition UserIDKey : context.key := context.ContextKey "user_id".
Definition TenantIDKey : context.key := context.ContextKey "tenant_id".
Definition ClaimsKey : context.key := context.ContextKey "claims".

(** [ctx.Value(k).(string)], with the empty string when the assertion
    fails. *)
Definition stringValue (ctx : context.Context) (k : context.key) : string :=
  match context.Value ctx k with
  | Some (context.Str s) => s
  | _ => ""
  end.

Definition AddRequestIDToContext (ctx : context.Context) (requestID : string)
  : context.Context :=
  context.WithValue ctx RequestIDKey (context.Str requestID).

Definition GetRequestIDFromContext (ctx : context.Context) : string :=
  stringValue ctx RequestIDKey.

Definition AddUserIDToContext (ctx : context.Context) (userID : string)
  : context.Context :=
  context.WithValue ctx UserIDKey (context.Str userID).

Definition GetUserIDFromContextDirect (ctx : context.Context) : string :=
  stringValue ctx UserIDKey.

Definition AddTenantIDToContext (ctx : context.Context) (tenantID : string)
  : context.Context :=
  context.WithValue ctx TenantIDKey (context.Str tenantID).

Definition GetTenantIDFromContextDirect (ctx : context.Context) : string :=
  stringValue ctx TenantIDKey.

(** ** cache.go: GetMultiple *)

Module mget.
(** What [breaker.Execute] around [redis.MGet(..).Result()] hands back:
    a slice with one entry per key, [nil] ([None]) for a key that is not
    there, or something that is not a slice. *)
Inductive reply (V : Type) :=
| Slice (values : list (option V))
| NotSlice (type_name : string).
Arguments Slice {V} values.
Arguments NotSlice {V} type_name.

Class Backend (R V : Type) := {
  ExecMGet : R → list string → R * (reply V * cache.error)
}.

Section GetMultiple.
Context {R V : Type} `{!Backend R V}.


End GetMultiple.
End mget.

(** ** The logging middleware that follows the limiters in the file *)

(** Two's complement wrap-around to 32 bits: the conversion to [rune]. *)
Definition wrap32 (z : Z) : Z := (z + 2 ^ 31) `mod` 2 ^ 32 - 2 ^ 31.

(** [t.UnixNano()]: nanoseconds since the Unix epoch, in int64
    arithmetic. *)
Definition UnixNano (t : time.Time) : Z :=
  wrap64 (t - time.unixToInternal * time.Second).

(** The conversion of a [rune] to a string: its UTF-8 encoding, or that
    of U+FFFD when it is not a Unicode scalar value. *)
Module utf8.
Definition RuneError : Z := 65533.
Definition MaxRune : Z := 1114111.
Definition surrogateMin : Z := 55296.
Definition surrogateMax : Z := 57343.

(** [byte(x)] *)
Definition byte (x : Z) : ascii := ascii_of_N (Z.to_N (x `mod` 256)).

(** [t | byte(x)]: the leading byte of a sequence. *)
Definition lead (t x : Z) : ascii := byte (Z.lor t (x `mod` 256)).

(** [tx | byte(x)&maskx]: a continuation byte. *)
Definition cont (x : Z) : ascii :=
  byte (Z.lor 128 (Z.land (x `mod` 256) 63)).

Definition encoderune (r : Z) : string :=
  let i := r `mod` 2 ^ 32 in
  if decide (i ≤ 127) then String (byte r) ""
  else if decide (i ≤ 2047) then
    String (lead 192 (Z.shiftr r 6)) (String (cont r) "")
  else if decide (MaxRune < i ∨ surrogateMin ≤ i ≤ surrogateMax
                  ∨ i ≤ 65535) then
    let r :=
      if decide (MaxRune < i ∨ surrogateMin ≤ i ≤ surrogateMax)
      then RuneError else r in
    String (lead 224 (Z.shiftr r 12))
      (String (cont (Z.shiftr r 6)) (String (cont r) ""))
  else
    String (lead 240 (Z.shiftr r 18))
      (String (cont (Z.shiftr r 12))
         (String (cont (Z.shiftr r 6)) (String (cont r) ""))).
End utf8.

(** [generateRequestID] at clock reading [now]. *)
Definition generateRequestID (now : time.Time) : string :=
  "req_" +:+ utf8.encoderune (wrap32 (UnixNano now)).

(** Package logger: an entry handed to the zap logger.  [fields] are the
    fields in the order they are appended; [details] are the fields
    appended after them by a loop over a map, whose order Go leaves
    open. *)
Module logger.
Inductive level := DebugLevel | InfoLevel | WarnLevel | ErrorLevel.

Record entry := {
  lvl : level;
  msg : string;
  fields : list (string * string);
  details : gmap string string
}.

End logger.




(** A store of strings that answers [MGET] as Redis does: one entry for
    each key asked, [nil] for a key it does not hold. *)
#[global] Instance StringStore_mget
  : mget.Backend (gmap string string) string :=
  {| mget.ExecMGet r keys := (r, (mget.Slice ((λ k, r !! k) <$> keys), None)) |}.

(** * Properties *)

(** ** Integers, decimal strings, headers *)


Lemma pretty_N_go_nonempty (x : N) (s : string) :
  s ≠ "" → pretty_N_go x s ≠ "".
Proof.
  revert s. induction (N.lt_wf_0 x) as [x _ IH]. intros s Hs.
  destruct (decide (x = 0%N)) as [->|Hx].
  - by rewrite pretty_N_go_0.
  - rewrite pretty_N_go_step by lia. apply IH; [|done].
    apply N.div_lt; lia.
Qed.

Lemma Itoa_nonempty (i : Z) : strconv.Itoa i ≠ "".
Proof.
  assert (∀ p : positive, pretty p ≠ "") as Hpos.
  { intros p. unfold pretty, pretty_positive, pretty, pretty_N.
    case_decide; [done|].
    rewrite pretty_N_go_step by lia. by apply pretty_N_go_nonempty. }
  unfold strconv.Itoa, pretty, pretty_Z.
  destruct i as [|p|p]; [done|apply Hpos|done].
Qed.

Lemma Header_lookup_eq (c : gin.Context) (key value : string) :
  value ≠ "" → gin.Headers (gin.Header c key value) !! key = Some value.
Proof. intros Hv. simpl. case_decide; [done|]. by rewrite lookup_insert_eq. Qed.

Lemma Header_lookup_ne (c : gin.Context) (key key' value : string) :
  key ≠ key' →
  gin.Headers (gin.Header c key value) !! key' = gin.Headers c !! key'.
Proof.
  intros Hk. simpl. case_decide.
  - by rewrite lookup_delete_ne.
  - by rewrite lookup_insert_ne.
Qed.

Lemma Headers_Next (c : gin.Context) :
  gin.Headers (gin.Next c) = gin.Headers c.
Proof. reflexivity. Qed.

Lemma Headers_Abort_JSON (c : gin.Context) (code : Z) (obj : errors.Error)
    (key : string) :
  key ≠ "Content-Type" →
  gin.Headers (gin.Abort (gin.JSON c code obj)) !! key = gin.Headers c !! key.
Proof.
  intros Hkey. simpl. destruct (gin.Headers c !! "Content-Type"); [done|].
  by rewrite lookup_insert_ne.
Qed.

Lemma windowHeaders_Remaining config ws window remaining c :
  gin.Headers (windowHeaders config ws window remaining c)
    !! "X-RateLimit-Remaining" = Some (strconv.Itoa remaining).
Proof.
  unfold windowHeaders. cbv zeta.
  rewrite !Header_lookup_ne by done.
  apply Header_lookup_eq, Itoa_nonempty.
Qed.

Lemma windowHeaders_Reset config ws window remaining c :
  gin.Headers (windowHeaders config ws window remaining c)
    !! "X-RateLimit-Reset"
  = Some (strconv.Itoa (time.Unix (time.Add window ws))).
Proof.
  unfold windowHeaders. cbv zeta.
  rewrite Header_lookup_ne by done.
  apply Header_lookup_eq, Itoa_nonempty.
Qed.

Lemma windowHeaders_flow config ws window remaining c :
  let c' := windowHeaders config ws window remaining c in
  gin.Nexts c' = gin.Nexts c ∧ gin.Aborted c' = gin.Aborted c ∧
  gin.Status c' = gin.Status c ∧ gin.Body c' = gin.Body c.
Proof. done. Qed.


(** ** Time *)

Lemma window_end_after_now (now : time.Time) (ws : time.Duration) :
  0 < ws →
  let d := time.Add (time.Truncate now ws) ws - now in 0 < d ≤ ws.
Proof.
  intros Hws. unfold time.Truncate, time.Add. case_decide; [lia|].
  pose proof (Z.mod_pos_bound now ws Hws). simpl. lia.
Qed.

Lemma Sub_exact (t u : time.Time) : is_int64 (t - u) → time.Sub t u = t - u.
Proof.
  unfold is_int64, time.Sub, time.maxDuration, time.minDuration.
  intros [? ?]. cbv zeta. repeat case_decide; lia.
Qed.


(** ** The distributed handlers *)

Section DistributedFacts.
Context {R : Type} `{!cache.Backend R}.

Lemma sliding_handler_is_fixed :
  SlidingWindowRateLimit_handler (R:=R) = FixedWindowRateLimit_handler.
Proof. reflexivity. Qed.

Lemma constructed_handler (config : RateLimitConfig)
    (handler : R → time.Time → gin.Context → R * gin.Context) :
  SlidingWindowRateLimit config = Done handler ∨
  FixedWindowRateLimit config = Done handler →
  is_Some (RedisClient config) ∧
  handler = FixedWindowRateLimit_handler config (keyFuncOf config)
              (windowSizeOf config).
Proof.
  unfold SlidingWindowRateLimit, FixedWindowRateLimit.
  destruct (RedisClient config); intros [Hc|Hc]; try discriminate;
    injection Hc as <-; split; eauto.
Qed.


Lemma Fixed_handler_failed config r now c r1 count e :
  skipsPath (SkipPaths config) (gin.Path c) = false →
  cache.IncrementBy r (counterKey config now c) 1 = (r1, (count, Some e)) →
  FixedWindowRateLimit_handler config (keyFuncOf config) (windowSizeOf config)
    r now c = (r1, gin.Next c).
Proof.
  intros Hskip Hincr. unfold FixedWindowRateLimit_handler.
  rewrite Hskip. unfold counterKey in Hincr. cbv zeta in *. by rewrite Hincr.
Qed.

Lemma Fixed_handler_counted config r now c r1 count :
  skipsPath (SkipPaths config) (gin.Path c) = false →
  cache.IncrementBy r (counterKey config now c) 1 = (r1, (count, None)) →
  let ws := windowSizeOf config in
  let window := time.Truncate now ws in
  let r2 :=
    if decide (count = 1)
    then fst (cache.Expire r1 (counterKey config now c) ws) else r1 in
  FixedWindowRateLimit_handler config (keyFuncOf config) ws r now c =
  if decide (MaxRequests config < count) then
    (r2, gin.Abort
           (gin.JSON (windowHeaders config ws window 0 c)
              StatusTooManyRequests
              (errors.NewRateLimitedError
                 (wrap64 (time.Seconds_int
                            (time.Sub (time.Add window ws) now) + 1)))))
  else
    (r2, gin.Next
           (windowHeaders config ws window
              (wrap64 (MaxRequests config - count)) c)).
Proof.
  intros Hskip Hincr. unfold FixedWindowRateLimit_handler.
  rewrite Hskip. unfold counterKey in *. cbv zeta in *. rewrite Hincr.
  by repeat case_decide.
Qed.

End DistributedFacts.

(** ** The model on concrete inputs *)

Example Duration_String_samples :
  time.String time.Minute = "1m0s" ∧
  time.String (90 * time.Minute + 1500 * time.Millisecond) = "1h30m1.5s" ∧
  time.String (1500 * time.Nanosecond) = "1.5µs" ∧
  time.String (-250 * time.Millisecond) = "-250ms" ∧
  time.String 0 = "0s".
Proof. repeat split; vm_compute; reflexivity. Qed.

Example Truncate_samples :
  time.Unix sampleNow = 1764403200 ∧
  time.Truncate (sampleNow + 75 * time.Second + 3) time.Minute
  = sampleNow + 60 * time.Second ∧
  time.Truncate (sampleNow + 75 * time.Second) (- time.Minute)
  = sampleNow + 75 * time.Second.
Proof. repeat split; vm_compute; reflexivity. Qed.

(** Three requests a minute for key "ip:1.2.3.4": the first three
    requests of a minute pass with 2, 1 and 0 remaining, the fourth gets
    a 429 with 0 remaining and a [retry_after] within the minute, and the
    first request of the next minute passes again on a key of its own. *)
Example three_a_minute :
  let policy :=
    {| RequestsPerSecond := 0; BurstSize := 0; WindowSize := time.Minute;
       MaxRequests := 3;
       KeyFunc := Some (λ c, "ip:" +:+ gin.ClientIP c);
       SkipPaths := []; UseRedis := true;
       RedisClient := Some localRedis |} in
  let handler :=
    FixedWindowRateLimit_handler policy (keyFuncOf policy)
      (windowSizeOf policy) in
  let run :=
    serve handler emptyStore
      [(sampleNow, sampleRequest);
       (sampleNow + 10 * time.Second, sampleRequest);
       (sampleNow + 20 * time.Second, sampleRequest);
       (sampleNow + 30 * time.Second, sampleRequest);
       (sampleNow + 60 * time.Second, sampleRequest)] in
  FixedWindowRateLimit (R:=MemStore) policy = Done handler ∧
  map (λ c, (gin.Status c, gin.Headers c !! "X-RateLimit-Remaining",
             retryAfterOf c)) (snd run)
  = [(None, Some "2", None); (None, Some "1", None);
     (None, Some "0", None); (Some 429, Some "0", Some 31);
     (None, Some "2", None)] ∧
  counters (fst run) !! "ratelimit:ip:1.2.3.4:1764403200" = Some 4 ∧
  counters (fst run) !! "ratelimit:ip:1.2.3.4:1764403260" = Some 1 ∧
  expiry (fst run) !! "ratelimit:ip:1.2.3.4:1764403200" = Some time.Minute.
Proof. cbv zeta. repeat split; vm_compute; reflexivity. Qed.

(** ** Claims on the distributed limiters *)



(** C3. A request handled by the sliding-window or the fixed-window
    limiter whose increment call returns an error is admitted: the rest of
    the chain runs, nothing is rejected, no expiry is set on the counter
    and the response headers are the ones the request came with, so no
    X-RateLimit header is set. *)
Theorem C3_fail_open {R : Type} `{!cache.Backend R}
    (config : RateLimitConfig)
    (handler : R → time.Time → gin.Context → R * gin.Context)
    (r r1 : R) (now : time.Time) (c : gin.Context) (count : Z) (e : string) :
  SlidingWindowRateLimit config = Done handler ∨
  FixedWindowRateLimit config = Done handler →
  skipsPath (SkipPaths config) (gin.Path c) = false →
  cache.IncrementBy r (counterKey config now c) 1 = (r1, (count, Some e)) →
  ∃ c' : gin.Context,
    handler r now c = (r1, c') ∧
    admitted c c' ∧ ¬ rejected c c' ∧
    gin.Headers c' = gin.Headers c.
Proof.
  intros Hh Hskip Hincr. apply constructed_handler in Hh as [_ ->].
  rewrite (Fixed_handler_failed config r now c r1 count e Hskip Hincr).
  exists (gin.Next c). split; [done|]. split; [done|]. split; [|done].
  intros (Hn & _). simpl in Hn. lia.
Qed.

Lemma C3_fail_open_witness :
  ∃ c' : gin.Context,
    SlidingWindowRateLimit_handler windowPolicy (keyFuncOf windowPolicy)
      (windowSizeOf windowPolicy) downStore sampleNow sampleRequest =
      (downStore, c') ∧
    admitted sampleRequest c' ∧ ¬ rejected sampleRequest c' ∧
    gin.Headers c' = gin.Headers sampleRequest.
Proof.
  apply (C3_fail_open (R:=MemStore) windowPolicy
           (SlidingWindowRateLimit_handler windowPolicy
              (keyFuncOf windowPolicy) (windowSizeOf windowPolicy))
           downStore downStore sampleNow sampleRequest 0
           "failed to increment by: dial tcp: connection refused").
  - left. reflexivity.
  - reflexivity.
  - vm_compute. reflexivity.
Defined.

(** C8. The sliding-window and the fixed-window limiter are the same
    limiter: a configuration either makes both constructors panic (no
    store client) or yields two handlers that, on every store state, clock
    reading and request, leave the same store and the same context (so
    the same decision, counter key and updates, headers and body), one
    request at a time and over any sequence of requests. *)
Theorem C8_sliding_is_fixed {R : Type} `{!cache.Backend R}
    (config : RateLimitConfig) :
  match SlidingWindowRateLimit (R:=R) config,
        FixedWindowRateLimit (R:=R) config with
  | Done sliding, Done fixed =>
      (∀ (r : R) (now : time.Time) (c : gin.Context),
         sliding r now c = fixed r now c) ∧
      (∀ (r : R) (requests : list (time.Time * gin.Context)),
         serve sliding r requests = serve fixed r requests)
  | Panic _, Panic _ => RedisClient config = None
  | _, _ => False
  end.
Proof.
  unfold SlidingWindowRateLimit, FixedWindowRateLimit.
  destruct (RedisClient config); [|done].
  rewrite sliding_handler_is_fixed. done.
Qed.

(** C10. With [WindowSize] zero both distributed limiters run a one-minute
    window: the counter key carries the clock reading truncated to the
    minute (a Unix time that is a multiple of 60, at most a minute back),
    the expiry set on a new counter is one minute, X-RateLimit-Reset is
    the end of that minute and X-RateLimit-Window reads "1m0s". *)
Theorem C10_zero_window_is_one_minute {R : Type} `{!cache.Backend R}
    (config : RateLimitConfig)
    (handler : R → time.Time → gin.Context → R * gin.Context)
    (r r1 : R) (now : time.Time) (c : gin.Context) (count : Z) :
  WindowSize config = 0 →
  SlidingWindowRateLimit config = Done handler ∨
  FixedWindowRateLimit config = Done handler →
  skipsPath (SkipPaths config) (gin.Path c) = false →
  let window := time.Truncate now time.Minute in
  let key := ("ratelimit:" +:+ keyFuncOf config c) +:+ ":" +:+
             strconv.Itoa (time.Unix window) in
  cache.IncrementBy r key 1 = (r1, (count, None)) →
  (time.Unix window `mod` 60 = 0 ∧ window ≤ now < window + time.Minute) ∧
  ∃ c' : gin.Context,
    handler r now c =
      (if decide (count = 1) then fst (cache.Expire r1 key time.Minute)
       else r1, c') ∧
    gin.Headers c' !! "X-RateLimit-Reset" =
      Some (strconv.Itoa (time.Unix (time.Add window time.Minute))) ∧
    gin.Headers c' !! "X-RateLimit-Window" = Some "1m0s".
Proof.
  intros Hzero Hh Hskip window key Hincr. split.
  { unfold window, time.Truncate, time.Unix, time.Add.
    case_decide as Hd; [done|]. vm_compute in Hd.
    change time.Minute with 60000000000.
    change time.Second with 1000000000.
    change time.unixToInternal with 62135596800.
    Z.to_euclidean_division_equations. lia. }
  apply constructed_handler in Hh as [_ ->].
  assert (windowSizeOf config = time.Minute) as Hws.
  { unfold windowSizeOf. by rewrite decide_True. }
  assert (counterKey config now c = key) as Hkey.
  { unfold counterKey. by rewrite Hws. }
  rewrite <- Hkey in Hincr.
  rewrite (Fixed_handler_counted config r now c r1 count Hskip Hincr).
  cbv zeta. rewrite Hkey, Hws. fold window.
  assert (∀ remaining,
    gin.Headers (windowHeaders config time.Minute window remaining c)
      !! "X-RateLimit-Window" = Some "1m0s") as Hwin.
  { intros remaining. unfold windowHeaders. cbv zeta.
    change (time.String time.Minute) with "1m0s".
    by apply Header_lookup_eq. }
  case_decide; eexists; (split; [reflexivity|]);
    rewrite ?Headers_Abort_JSON, ?Headers_Next, ?windowHeaders_Reset, ?Hwin
      by done;
    done.
Qed.

Lemma C10_zero_window_is_one_minute_witness :
  (time.Unix (time.Truncate (sampleNow + 61 * time.Second) time.Minute)
     `mod` 60 = 0 ∧
   time.Truncate (sampleNow + 61 * time.Second) time.Minute
     ≤ sampleNow + 61 * time.Second
     < time.Truncate (sampleNow + 61 * time.Second) time.Minute
       + time.Minute) ∧
  ∃ c' : gin.Context,
    FixedWindowRateLimit_handler windowPolicy (keyFuncOf windowPolicy)
      (windowSizeOf windowPolicy) emptyStore
      (sampleNow + 61 * time.Second) sampleRequest =
      (if decide (1 = 1)
       then fst (cache.Expire
                   (fst (cache.IncrementBy emptyStore
                           "ratelimit:1.2.3.4:1764403260" 1))
                   "ratelimit:1.2.3.4:1764403260" time.Minute)
       else fst (cache.IncrementBy emptyStore
                   "ratelimit:1.2.3.4:1764403260" 1), c') ∧
    gin.Headers c' !! "X-RateLimit-Reset" =
      Some (strconv.Itoa
              (time.Unix
                 (time.Add
                    (time.Truncate (sampleNow + 61 * time.Second)
                       time.Minute) time.Minute))) ∧
    gin.Headers c' !! "X-RateLimit-Window" = Some "1m0s".
Proof.
  apply (C10_zero_window_is_one_minute (R:=MemStore) windowPolicy
           (FixedWindowRateLimit_handler windowPolicy
              (keyFuncOf windowPolicy) (windowSizeOf windowPolicy))
           emptyStore
           (fst (cache.IncrementBy emptyStore
                   "ratelimit:1.2.3.4:1764403260" 1))
           (sampleNow + 61 * time.Second) sampleRequest 1).
  - reflexivity.
  - right. reflexivity.
  - reflexivity.
  - vm_compute. reflexivity.
Defined.

(** ** The token-bucket handler *)







(** ** Rejections by the distributed handlers *)

Section RejectionFacts.
Context {R : Type} `{!cache.Backend R}.



End RejectionFacts.

(** ** The per-principal handler *)

Section PerUserFacts.
Context {R : Type} `{!cache.Backend R}.


Lemma PerUser_handler_unfold config defaultConfig (r : R) now c :
  PerUserRateLimit_handler config defaultConfig r now c =
  let selectedConfig := selectConfig config defaultConfig c in
  if UseRedis selectedConfig then
    match FixedWindowRateLimit selectedConfig with
    | Panic msg => Panic msg
    | Done handler => Done (handler r now c)
    end
  else
    Done (r, snd (TokenBucketRateLimit_handler selectedConfig
                    (keyFuncOf selectedConfig) ∅ now c)).
Proof.
  unfold PerUserRateLimit_handler. cbv zeta.
  destruct (UseRedis _); [done|]. unfold TokenBucketRateLimit.
  fold (keyFuncOf (selectConfig config defaultConfig c)).
  by destruct (TokenBucketRateLimit_handler _ _ _ _ _).
Qed.


End PerUserFacts.

(** ** Claims on exemption and on rejections *)






(** Each rejection by the token-bucket handler books a token, so at one
    instant [retryAfter] goes up by one from one rejection to the next,
    while X-RateLimit-Reset stays one second ahead. *)
Lemma TokenBucket_retryAfter_grows :
  map (λ c, (gin.Aborted c, gin.Status c, retryAfterOf c,
             gin.Headers c !! "X-RateLimit-Reset"))
    (snd (serve (TokenBucketRateLimit_handler bucketPolicy
                   (keyFuncOf bucketPolicy)) ∅
            [(sampleNow, sampleRequest); (sampleNow, sampleRequest);
             (sampleNow, sampleRequest); (sampleNow, sampleRequest)]))
  = [(false, None, None, None);
     (true, Some 429, Some 2, Some "1764403201");
     (true, Some 429, Some 3, Some "1764403201");
     (true, Some 429, Some 4, Some "1764403201")].
Proof. vm_compute. reflexivity. Qed.

(** ** Policy selection *)

Lemma rolesLoop_no_match (config : gmap string RateLimitConfig)
    (roles : list string) (selectedConfig : RateLimitConfig) :
  (∀ role, role ∈ roles → config !! role = None) →
  rolesLoop config roles selectedConfig = selectedConfig.
Proof.
  induction roles as [|role rest IH]; intros Hnone; simpl; [done|].
  rewrite (Hnone role) by apply list_elem_of_here.
  apply IH. intros role' Hin. apply Hnone. by apply list_elem_of_further.
Qed.

Lemma rolesLoop_first_match (config : gmap string RateLimitConfig)
    (before after : list string) (role : string)
    (cfg selectedConfig : RateLimitConfig) :
  (∀ role', role' ∈ before → config !! role' = None) →
  config !! role = Some cfg →
  rolesLoop config (before ++ role :: after) selectedConfig = cfg.
Proof.
  induction before as [|role' rest IH]; intros Hnone Hrole; simpl.
  - by rewrite Hrole.
  - rewrite (Hnone role') by apply list_elem_of_here.
    apply IH; [|done]. intros ? Hin. apply Hnone.
    by apply list_elem_of_further.
Qed.

(** The policy of the first role that has one is the one selected, as
    long as its [MaxRequests] is not zero. *)
Lemma selectConfig_first_match (config : gmap string RateLimitConfig)
    (defaultConfig : RateLimitConfig) (c : gin.Context) (claims : JWTClaims)
    (before after : list string) (role : string) (cfg : RateLimitConfig) :
  GetClaimsFromContext c = Some claims →
  Roles claims = before ++ role :: after →
  (∀ role', role' ∈ before → config !! role' = None) →
  config !! role = Some cfg →
  selectConfig config defaultConfig c =
  if decide (MaxRequests cfg = 0) then defaultConfig else cfg.
Proof.
  intros Hclaims Hroles Hnone Hrole. unfold selectConfig.
  rewrite Hclaims, Hroles. cbv zeta.
  by rewrite (rolesLoop_first_match _ _ _ _ _ _ Hnone Hrole).
Qed.

Lemma selectConfig_no_match (config : gmap string RateLimitConfig)
    (defaultConfig : RateLimitConfig) (c : gin.Context) :
  match GetClaimsFromContext c with
  | Some claims => ∀ role, role ∈ Roles claims → config !! role = None
  | None => True
  end →
  selectConfig config defaultConfig c = defaultConfig.
Proof.
  unfold selectConfig. destruct (GetClaimsFromContext c) as [claims|];
    intros Hnone; cbv zeta; [|done].
  by rewrite rolesLoop_no_match.
Qed.

(** C6 fails on the code.  The caller's only role, "admin", has a
    configured policy (a token bucket, its [MaxRequests] left at zero),
    yet the policy selected for the request is the default one. *)
Theorem C6_matched_policy_replaced_by_default :
  let config : gmap string RateLimitConfig := {[ "admin" := adminPolicy ]} in
  GetClaimsFromContext adminRequest = Some adminClaims ∧
  Roles adminClaims = ["admin"] ∧
  config !! "admin" = Some adminPolicy ∧
  selectConfig config windowPolicy adminRequest = windowPolicy ∧
  RequestsPerSecond adminPolicy = 100 ∧
  RequestsPerSecond (selectConfig config windowPolicy adminRequest) = 0 ∧
  UseRedis adminPolicy = false ∧
  UseRedis (selectConfig config windowPolicy adminRequest) = true.
Proof. cbv zeta. repeat split; vm_compute; reflexivity. Qed.

(** ** Misconfiguration *)

(** With the shared store selected and no client, the two distributed
    constructors panic when called. *)
Lemma distributed_constructors_reject_nil_client {R : Type}
    `{!cache.Backend R} (config : RateLimitConfig) :
  RedisClient config = None →
  SlidingWindowRateLimit (R:=R) config
  = Panic "Redis client is required for sliding window rate limiting" ∧
  FixedWindowRateLimit (R:=R) config
  = Panic "Redis client is required for fixed window rate limiting".
Proof.
  intros Hnil. unfold SlidingWindowRateLimit, FixedWindowRateLimit.
  by rewrite Hnil.
Qed.

(** The per-principal constructor accepts any policies; a request for
    which the selected policy is on the shared store without a client
    panics. *)
Lemma PerUser_nil_client_panics {R : Type} `{!cache.Backend R}
    (config : gmap string RateLimitConfig) (defaultConfig : RateLimitConfig)
    (r : R) (now : time.Time) (c : gin.Context) :
  UseRedis (selectConfig config defaultConfig c) = true →
  RedisClient (selectConfig config defaultConfig c) = None →
  PerUserRateLimit config defaultConfig
  = Done (PerUserRateLimit_handler config defaultConfig) ∧
  PerUserRateLimit_handler config defaultConfig r now c
  = Panic "Redis client is required for fixed window rate limiting".
Proof.
  intros Huse Hnil. split; [done|].
  unfold PerUserRateLimit_handler. cbv zeta. rewrite Huse.
  unfold FixedWindowRateLimit. by rewrite Hnil.
Qed.

(** C4 fails on the code.  A default policy on the shared store with no
    client makes the fixed-window and sliding-window constructors panic,
    but the per-principal constructor returns its handler, and the panic
    comes when a request is handled, exempt path or not. *)
Theorem C4_per_principal_panics_on_request :
  UseRedis noStorePolicy = true ∧ RedisClient noStorePolicy = None ∧
  FixedWindowRateLimit (R:=MemStore) noStorePolicy
  = Panic "Redis client is required for fixed window rate limiting" ∧
  SlidingWindowRateLimit (R:=MemStore) noStorePolicy
  = Panic "Redis client is required for sliding window rate limiting" ∧
  PerUserRateLimit (R:=MemStore) ∅ noStorePolicy
  = Done (PerUserRateLimit_handler ∅ noStorePolicy) ∧
  PerUserRateLimit_handler ∅ noStorePolicy emptyStore sampleNow sampleRequest
  = Panic "Redis client is required for fixed window rate limiting" ∧
  PerUserRateLimit_handler ∅ noStorePolicy emptyStore sampleNow healthRequest
  = Panic "Redis client is required for fixed window rate limiting".
Proof. repeat split; vm_compute; reflexivity. Qed.

(** ** The limiter of golang.org/x/time/rate *)

Lemma wait_positive (limit tokens : Z) :
  1 ≤ limit → limit ≤ tokens → 0 < rate.durationFromTokens limit tokens.
Proof.
  intros Hl Ht. unfold rate.durationFromTokens, rate.InfDuration,
    time.maxDuration.
  case_decide; [lia|].
  assert (1 ≤ tokens `quot` limit)
    by (apply Z.quot_le_lower_bound; lia).
  case_decide; unfold max_int64; lia.
Qed.

Lemma wait_le_Inf (limit tokens : Z) :
  rate.durationFromTokens limit tokens ≤ rate.InfDuration.
Proof.
  unfold rate.durationFromTokens, rate.InfDuration, time.maxDuration.
  repeat case_decide; lia.
Qed.

Lemma advance_idle (r b tokens : Z) (now : time.Time) :
  tokens ≤ b * rate.token →
  rate.advance {| rate.limit := r; rate.burst := b;
                  rate.tokens := tokens; rate.last := now |} now = tokens.
Proof.
  intros Hcap. unfold rate.advance, time.Before, time.Sub,
    rate.tokensFromDuration, time.maxDuration, time.minDuration. simpl.
  rewrite bool_decide_eq_false_2 by lia. rewrite Z.sub_diag.
  repeat case_decide; unfold min_int64, max_int64 in *; lia.
Qed.

Lemma advance_full (r b : Z) (now : time.Time) :
  rate.advance (rate.NewLimiter r b) now = b * rate.token.
Proof.
  unfold rate.advance, rate.NewLimiter, time.Before, time.Sub,
    rate.tokensFromDuration, time.maxDuration, time.minDuration. simpl.
  case_bool_decide; repeat case_decide;
    unfold min_int64, max_int64 in *; nia.
Qed.

Lemma Allow_new (r b : Z) (now : time.Time) :
  1 ≤ r → 1 ≤ b →
  rate.Allow (rate.NewLimiter r b) now =
  ({| rate.limit := r; rate.burst := b;
      rate.tokens := (b - 1) * rate.token; rate.last := now |}, true).
Proof.
  intros Hr Hb. unfold rate.Allow, rate.reserveN.
  rewrite decide_False by (simpl; lia).
  rewrite advance_full. simpl rate.burst. simpl rate.limit.
  rewrite (decide_False (P := b * rate.token - 1 * rate.token < 0))
    by (unfold rate.token; lia).
  rewrite !bool_decide_eq_true_2 by lia. simpl.
  do 2 f_equal; lia.
Qed.

Lemma Allow_spend (r b tokens : Z) (now : time.Time) :
  1 ≤ r → rate.token ≤ tokens ≤ b * rate.token →
  rate.Allow {| rate.limit := r; rate.burst := b;
                rate.tokens := tokens; rate.last := now |} now =
  ({| rate.limit := r; rate.burst := b;
      rate.tokens := tokens - rate.token; rate.last := now |}, true).
Proof.
  intros Hr Ht. unfold rate.Allow, rate.reserveN.
  rewrite decide_False by (simpl; lia).
  rewrite advance_idle by lia.
  simpl rate.burst. simpl rate.limit. simpl rate.tokens.
  rewrite (decide_False (P := tokens - 1 * rate.token < 0)) by lia.
  rewrite !bool_decide_eq_true_2 by (unfold rate.token in *; lia). simpl.
  do 2 f_equal; lia.
Qed.

(** With no whole token in the bucket once the wait [w] is credited, the
    event is refused and the limiter is left as it was. *)
Lemma Allow_short (r b tokens : Z) (last : time.Time) (w : time.Duration) :
  1 ≤ r ≤ rate.token → 1 ≤ b → 0 ≤ w → is_int64 w →
  tokens + w * r ≤ 0 →
  rate.Allow {| rate.limit := r; rate.burst := b;
                rate.tokens := tokens; rate.last := last |} (last + w) =
  ({| rate.limit := r; rate.burst := b;
      rate.tokens := tokens; rate.last := last |}, false).
Proof.
  intros Hr Hb Hw Hint Hshort. unfold rate.Allow, rate.reserveN.
  rewrite decide_False by (simpl; lia).
  assert (rate.advance {| rate.limit := r; rate.burst := b;
                          rate.tokens := tokens; rate.last := last |}
            (last + w) = tokens + w * r) as ->.
  { unfold rate.advance, time.Before, rate.tokensFromDuration. simpl.
    rewrite bool_decide_eq_false_2 by lia.
    rewrite Sub_exact by (by replace (last + w - last) with w by lia).
    replace (last + w - last) with w by lia.
    rewrite (decide_False (P := r ≤ 0)) by lia.
    rewrite decide_False; [done|]. unfold rate.token. lia. }
  simpl rate.burst. simpl rate.limit.
  rewrite (decide_True (P := tokens + w * r - 1 * rate.token < 0))
    by (unfold rate.token; lia).
  pose proof (wait_positive r (- (tokens + w * r - 1 * rate.token))) as Hwait.
  rewrite (bool_decide_eq_false_2 (_ ≤ 0)); [by rewrite andb_false_r|].
  unfold rate.token in *. lia.
Qed.

(** [Reserve] books a token even when none is there: the count goes
    down by one, below zero if need be. *)
Lemma Reserve_books (r b tokens : Z) (now : time.Time) :
  1 ≤ r → 1 ≤ b → tokens ≤ b * rate.token →
  fst (rate.Reserve {| rate.limit := r; rate.burst := b;
                       rate.tokens := tokens; rate.last := now |} now) =
  {| rate.limit := r; rate.burst := b;
     rate.tokens := tokens - rate.token; rate.last := now |}.
Proof.
  intros Hr Hb Ht. unfold rate.Reserve, rate.reserveN.
  rewrite decide_False by (simpl; lia).
  rewrite advance_idle by lia.
  simpl rate.burst. simpl rate.limit. simpl rate.tokens.
  rewrite (bool_decide_eq_true_2 (1 ≤ b)) by done.
  rewrite (bool_decide_eq_true_2 (_ ≤ rate.InfDuration)).
  - simpl. f_equal; lia.
  - case_decide; [apply wait_le_Inf|].
    unfold rate.InfDuration, time.maxDuration, max_int64. lia.
Qed.

(** ** The token-bucket handler on one key *)

Lemma serve_app {S : Type}
    (handler : S → time.Time → gin.Context → S * gin.Context)
    (s : S) (before after : list (time.Time * gin.Context)) :
  serve handler s (before ++ after) =
  (fst (serve handler (fst (serve handler s before)) after),
   snd (serve handler s before)
   ++ snd (serve handler (fst (serve handler s before)) after)).
Proof.
  revert s. induction before as [|[now c] rest IH]; intros s; simpl.
  - by destruct (serve handler s after).
  - destruct (handler s now c) as [s1 c1]. rewrite IH.
    by destruct (serve handler s1 rest).
Qed.

Section OneKey.
Variable config : RateLimitConfig.
Variable KeyFunc : gin.Context → string.
Variable c : gin.Context.
Hypothesis not_exempt : skipsPath (SkipPaths config) (gin.Path c) = false.
Hypothesis rate_range : 1 ≤ RequestsPerSecond config ≤ rate.token.
Hypothesis burst_range : 1 ≤ BurstSize config.

Lemma TokenBucket_first limiters now :
  limiters !! KeyFunc c = None →
  TokenBucketRateLimit_handler config KeyFunc limiters now c =
  (<[KeyFunc c := bucketOf config ((BurstSize config - 1) * rate.token) now]>
     limiters,
   passedBy config c).
Proof.
  intros Hnew. unfold TokenBucketRateLimit_handler.
  rewrite not_exempt, Hnew. cbv zeta.
  rewrite Allow_new by lia. simpl. by rewrite insert_insert_eq.
Qed.

Lemma TokenBucket_spend limiters tokens now :
  limiters !! KeyFunc c = Some (bucketOf config tokens now) →
  rate.token ≤ tokens ≤ BurstSize config * rate.token →
  TokenBucketRateLimit_handler config KeyFunc limiters now c =
  (<[KeyFunc c := bucketOf config (tokens - rate.token) now]> limiters,
   passedBy config c).
Proof.
  intros Hkey Ht. unfold TokenBucketRateLimit_handler.
  rewrite not_exempt, Hkey. cbv zeta. unfold bucketOf.
  rewrite Allow_spend by lia. done.
Qed.

Lemma TokenBucket_short limiters tokens last (w : time.Duration) :
  limiters !! KeyFunc c = Some (bucketOf config tokens last) →
  0 ≤ w → is_int64 w → tokens + w * RequestsPerSecond config ≤ 0 →
  ∃ c' : gin.Context,
    TokenBucketRateLimit_handler config KeyFunc limiters (last + w) c =
    (<[KeyFunc c :=
         fst (rate.Reserve (bucketOf config tokens last) (last + w))]>
       limiters, c') ∧
    rejected c c'.
Proof.
  intros Hkey Hw Hint Hshort. unfold TokenBucketRateLimit_handler.
  rewrite not_exempt, Hkey. cbv zeta. unfold bucketOf.
  rewrite Allow_short by (done || lia). simpl negb. cbv iota.
  destruct (rate.Reserve _ _) as [limiter reservation]. simpl fst.
  eexists. split; [by rewrite insert_insert_eq|]. done.
Qed.

(** A run of [n] requests at one instant on a bucket that holds at least
    [n] tokens: all pass, [n] tokens are spent. *)
Lemma TokenBucket_run (n : nat) : ∀ limiters tokens now,
  limiters !! KeyFunc c = Some (bucketOf config tokens now) →
  Z.of_nat n * rate.token ≤ tokens ≤ BurstSize config * rate.token →
  serve (TokenBucketRateLimit_handler config KeyFunc) limiters
    (replicate n (now, c)) =
  (<[KeyFunc c := bucketOf config (tokens - Z.of_nat n * rate.token) now]>
     limiters,
   replicate n (passedBy config c)).
Proof.
  induction n as [|n IH]; intros limiters tokens now Hkey Ht.
  - simpl. rewrite Z.sub_0_r. by rewrite insert_id.
  - cbn [replicate serve].
    rewrite (TokenBucket_spend limiters tokens now Hkey)
      by (unfold rate.token in *; lia).
    rewrite (IH _ (tokens - rate.token) now)
      by (rewrite ?lookup_insert_eq; unfold rate.token in *; done || lia).
    rewrite insert_insert_eq. do 3 f_equal. lia.
Qed.

(** A key not seen before: a burst of [BurstSize] requests at one instant
    passes, the next request at that instant is rejected, and so is a
    request that comes [w] later, for any wait [w] up to the time one
    token takes to accrue. *)
Lemma TokenBucket_burst_then_wait (n : nat) limiters now (w : time.Duration) :
  BurstSize config = Z.of_nat (S n) →
  limiters !! KeyFunc c = None →
  0 ≤ w → w * RequestsPerSecond config ≤ rate.token →
  ∃ c1 c2 : gin.Context,
    snd (serve (TokenBucketRateLimit_handler config KeyFunc) limiters
           (replicate (S n) (now, c) ++ [(now, c); (now + w, c)])) =
    replicate (S n) (passedBy config c) ++ [c1; c2] ∧
    admitted c (passedBy config c) ∧ rejected c c1 ∧ rejected c c2.
Proof.
  intros HB Hnew Hw Hwait.
  assert (is_int64 w) as Hint.
  { unfold is_int64, min_int64, max_int64, rate.token in *. nia. }
  rewrite serve_app. cbn [replicate serve].
  rewrite (TokenBucket_first limiters now Hnew).
  rewrite (TokenBucket_run n _ ((BurstSize config - 1) * rate.token) now)
    by (rewrite ?lookup_insert_eq; unfold rate.token; done || lia).
  rewrite insert_insert_eq. cbn [fst snd].
  replace ((BurstSize config - 1) * rate.token - Z.of_nat n * rate.token)
    with 0 by lia.
  set (limiters1 := <[KeyFunc c := bucketOf config 0 now]> limiters).
  destruct (TokenBucket_short limiters1 0 now 0) as (c1 & Hrun1 & Hrej1);
    [apply lookup_insert_eq|done|done|lia|].
  rewrite Z.add_0_r in Hrun1. rewrite Hrun1.
  unfold bucketOf in Hrun1 |- *.
  rewrite Reserve_books by (unfold rate.token; lia).
  unfold limiters1. rewrite insert_insert_eq.
  set (limiters2 := <[KeyFunc c := _]> limiters).
  destruct (TokenBucket_short limiters2 (0 - rate.token) now w)
    as (c2 & Hrun2 & Hrej2);
    [apply lookup_insert_eq|done|done|unfold rate.token in *; lia|].
  rewrite Hrun2. cbn [fst snd].
  exists c1, c2. split; [done|]. split; [|done]. done.
Qed.

End OneKey.

(** ** Claims on the token bucket *)

(** X4. Through the per-principal handler a token-bucket policy with a rate
    and a burst of at least one admits every request that is not exempt: the
    limiter map is made anew for each request, so each request meets a
    full bucket. *)
Lemma PerUser_bucket_admits {R : Type} `{!cache.Backend R}
    (config : gmap string RateLimitConfig) (defaultConfig : RateLimitConfig)
    (r : R) (now : time.Time) (c : gin.Context) :
  let selectedConfig := selectConfig config defaultConfig c in
  UseRedis selectedConfig = false →
  1 ≤ RequestsPerSecond selectedConfig →
  1 ≤ BurstSize selectedConfig →
  skipsPath (SkipPaths selectedConfig) (gin.Path c) = false →
  PerUserRateLimit_handler config defaultConfig r now c =
  Done (r, gin.Next (gin.Header c "X-RateLimit-Limit"
                       (strconv.Itoa (RequestsPerSecond selectedConfig)))).
Proof.
  intros selectedConfig Hlocal Hrate Hburst Hskip.
  rewrite PerUser_handler_unfold. cbv zeta. fold selectedConfig.
  rewrite Hlocal. unfold TokenBucketRateLimit_handler.
  rewrite Hskip, lookup_empty. cbv zeta.
  by rewrite Allow_new by done.
Qed.

(** C2 fails on the code.  Under the per-principal variant with a
    token-bucket policy of burst one, three requests with one key at one
    instant are all admitted; the token-bucket middleware built once
    from the same policy rejects the second and the third. *)
Theorem C2_per_principal_bucket_not_shared :
  UseRedis (selectConfig ∅ bucketPolicy sampleRequest) = false ∧
  BurstSize (selectConfig ∅ bucketPolicy sampleRequest) = 1 ∧
  match serve_outcome (PerUserRateLimit_handler ∅ bucketPolicy) emptyStore
          [(sampleNow, sampleRequest); (sampleNow, sampleRequest);
           (sampleNow, sampleRequest)] with
  | Done (_, responses) =>
      map (λ c, (gin.Nexts c, gin.Aborted c, gin.Status c)) responses
      = [(1%nat, false, None); (1%nat, false, None); (1%nat, false, None)]
  | Panic _ => False
  end ∧
  map (λ c, (gin.Nexts c, gin.Aborted c, gin.Status c))
    (snd (serve (TokenBucketRateLimit_handler bucketPolicy
                   (keyFuncOf bucketPolicy)) ∅
            [(sampleNow, sampleRequest); (sampleNow, sampleRequest);
             (sampleNow, sampleRequest)]))
  = [(1%nat, false, None); (0%nat, true, Some 429);
     (0%nat, true, Some 429)].
Proof. repeat split; vm_compute; reflexivity. Qed.

(** C5 fails on the code in its last part.  One token, one token a
    second, a key not seen before: the first request is admitted, the
    second at the same instant is rejected, and the request that comes
    one second later is rejected too, the rejection having booked the
    token that accrued meanwhile. *)
Theorem C5_no_token_after_refill_interval :
  TokenBucketRateLimit bucketPolicy
  = (∅,
     TokenBucketRateLimit_handler bucketPolicy (keyFuncOf bucketPolicy)) ∧
  BurstSize bucketPolicy = 1 ∧ RequestsPerSecond bucketPolicy = 1 ∧
  map (λ c, (gin.Nexts c, gin.Aborted c, gin.Status c))
    (snd (serve (TokenBucketRateLimit_handler bucketPolicy
                   (keyFuncOf bucketPolicy)) ∅
            [(sampleNow, sampleRequest); (sampleNow, sampleRequest);
             (sampleNow + 1 * time.Second, sampleRequest)]))
  = [(1%nat, false, None); (0%nat, true, Some 429);
     (0%nat, true, Some 429)] ∧
  rate.tokens <$>
    (fst (serve (TokenBucketRateLimit_handler bucketPolicy
                   (keyFuncOf bucketPolicy)) ∅
            [(sampleNow, sampleRequest); (sampleNow, sampleRequest)])
     !! "1.2.3.4")
  = Some (- rate.token).
Proof. repeat split; vm_compute; reflexivity. Qed.

(** ** Role and scope checks *)

Lemma markAll_lookup (entries : list string) (m : gmap string bool)
    (k : string) :
  markAll entries m !! k = if decide (k ∈ entries) then Some true else m !! k.
Proof.
  revert m. induction entries as [|entry rest IH]; intros m; cbn [markAll].
  - case_decide as Hin; [by apply elem_of_nil in Hin|done].
  - rewrite IH. destruct (decide (k ∈ rest)) as [Hin|Hout].
    + by rewrite decide_True by (by apply list_elem_of_further).
    + destruct (decide (k = entry)) as [->|Hne].
      * rewrite lookup_insert_eq.
        by rewrite decide_True by apply list_elem_of_here.
      * rewrite lookup_insert_ne by done.
        rewrite decide_False; [done|].
        intros [?|?]%elem_of_cons; done.
Qed.

Lemma anyMarked_true (m : gmap string bool) (required : list string) :
  anyMarked m required = true ↔
  ∃ entry, entry ∈ required ∧ m !! entry = Some true.
Proof.
  induction required as [|entry rest IH]; simpl.
  - split; [done|]. intros (e & Hin & _). by apply elem_of_nil in Hin.
  - destruct (m !! entry) as [[|]|] eqn:Hm; simpl.
    + split; [|done]. intros _. exists entry. split; [|done].
      apply list_elem_of_here.
    + rewrite IH. split.
      * intros (e & Hin & He). exists e. split; [|done].
        by apply list_elem_of_further.
      * intros (e & [->|Hin]%elem_of_cons & He); [congruence|]. by exists e.
    + rewrite IH. split.
      * intros (e & Hin & He). exists e. split; [|done].
        by apply list_elem_of_further.
      * intros (e & [->|Hin]%elem_of_cons & He); [congruence|]. by exists e.
Qed.

(** X10. [hasAnyRole] and [hasAnyScope] answer [true] exactly when
    the caller's list and the required list have an entry in common; in
    particular never for an empty required list or an empty caller
    list. *)
Theorem hasAny_shared_entry (user required : list string) :
  (hasAnyRole user required = true ↔
   ∃ role, role ∈ user ∧ role ∈ required) ∧
  (hasAnyScope user required = true ↔
   ∃ scope, scope ∈ user ∧ scope ∈ required) ∧
  hasAnyRole user [] = false ∧ hasAnyRole [] required = false.
Proof.
  assert (∀ u r, anyMarked (markAll u ∅) r = true ↔
                 ∃ e, e ∈ u ∧ e ∈ r) as Hshared.
  { intros u r. rewrite anyMarked_true. split.
    - intros (e & Hr & He). rewrite markAll_lookup in He.
      case_decide; [by exists e|]. by rewrite lookup_empty in He.
    - intros (e & Hu & Hr). exists e. split; [done|].
      rewrite markAll_lookup. by rewrite decide_True. }
  split; [apply Hshared|]. split; [apply Hshared|]. split; [done|].
  apply not_true_is_false. unfold hasAnyRole. rewrite Hshared.
  intros (e & He & _). by apply elem_of_nil in He.
Qed.

(** X11. [RequireRole] passes a request on, untouched, exactly when
    it carries claims with one of the roles asked for.  Every other
    request is aborted: with 401 when there are no claims, with 403 when
    there are.  With no roles asked for, every request is aborted. *)
Theorem RequireRole_decides (roles : list string) (c : gin.Context) :
  let c' := RequireRole roles c in
  (c' = gin.Next c ↔
   ∃ claims role,
     GetClaimsFromContext c = Some claims ∧
     role ∈ Roles claims ∧ role ∈ roles) ∧
  (c' = gin.Next c ∨
   gin.Aborted c' = true ∧ gin.Nexts c' = gin.Nexts c ∧
   gin.Status c' =
     Some (match GetClaimsFromContext c with
           | Some _ => StatusForbidden
           | None => StatusUnauthorized
           end)) ∧
  (roles = [] → gin.Aborted c' = true).
Proof.
  cbv zeta. unfold RequireRole.
  destruct (GetClaimsFromContext c) as [claims|] eqn:Hclaims.
  - destruct (hasAnyRole (Roles claims) roles) eqn:Hany; simpl.
    + split; [|split; [by left|]].
      * split; [|done]. intros _.
        apply anyMarked_true in Hany as (role & Hr & Hm).
        rewrite markAll_lookup in Hm.
        case_decide; [|by rewrite lookup_empty in Hm].
        by exists claims, role.
      * intros ->. done.
    + split; [|split; [by right|done]].
      split.
      * intros Heq. apply (f_equal gin.Nexts) in Heq. simpl in Heq. lia.
      * intros (claims' & role & [= <-] & Hu & Hr).
        assert (hasAnyRole (Roles claims) roles = true); [|congruence].
        apply anyMarked_true. exists role. split; [done|].
        rewrite markAll_lookup. by rewrite decide_True.
  - split; [|split; [by right|done]].
    split.
    + intros Heq. apply (f_equal gin.Nexts) in Heq. simpl in Heq. lia.
    + intros (claims' & role & [=] & _).
Qed.

(** ** Context helpers *)

(** X12. What one of the three [Add...ToContext] helpers stores, its
    [Get...] reads back; the other two [Get...] read what they read
    before; on a context without the value they read the empty string;
    and no helper changes what is found under an untyped string key,
    the kind of key auth.go stores and reads "user_id", "tenant_id" and
    "claims" under. *)
Theorem context_helpers_round_trip (ctx : context.Context) (v s : string) :
  (GetRequestIDFromContext (AddRequestIDToContext ctx v) = v ∧
   GetUserIDFromContextDirect (AddUserIDToContext ctx v) = v ∧
   GetTenantIDFromContextDirect (AddTenantIDToContext ctx v) = v) ∧
  (GetRequestIDFromContext (AddUserIDToContext ctx v)
   = GetRequestIDFromContext ctx ∧
   GetRequestIDFromContext (AddTenantIDToContext ctx v)
   = GetRequestIDFromContext ctx ∧
   GetUserIDFromContextDirect (AddRequestIDToContext ctx v)
   = GetUserIDFromContextDirect ctx ∧
   GetUserIDFromContextDirect (AddTenantIDToContext ctx v)
   = GetUserIDFromContextDirect ctx ∧
   GetTenantIDFromContextDirect (AddRequestIDToContext ctx v)
   = GetTenantIDFromContextDirect ctx ∧
   GetTenantIDFromContextDirect (AddUserIDToContext ctx v)
   = GetTenantIDFromContextDirect ctx) ∧
  (GetRequestIDFromContext context.Background = "" ∧
   GetUserIDFromContextDirect context.Background = "" ∧
   GetTenantIDFromContextDirect context.Background = "") ∧
  (context.Value (AddRequestIDToContext ctx v) (context.StringKey s)
   = context.Value ctx (context.StringKey s) ∧
   context.Value (AddUserIDToContext ctx v) (context.StringKey s)
   = context.Value ctx (context.StringKey s) ∧
   context.Value (AddTenantIDToContext ctx v) (context.StringKey s)
   = context.Value ctx (context.StringKey s)).
Proof. repeat split; reflexivity. Qed.

(** ** GetMultiple *)

Section GetMultipleFacts.
Context {R V : Type} `{!mget.Backend R V}.


End GetMultipleFacts.



(** ** Request identifiers *)

Lemma wrap32_range (z : Z) : -2147483648 ≤ wrap32 z < 2147483648.
Proof.
  unfold wrap32. change (2 ^ 31) with 2147483648.
  change (2 ^ 32) with 4294967296.
  pose proof (Z.mod_pos_bound (z + 2147483648) 4294967296). lia.
Qed.

Lemma wrap32_low_bits (x y : Z) :
  x `mod` 4294967296 = y `mod` 4294967296 → wrap32 x = wrap32 y.
Proof.
  unfold wrap32. change (2 ^ 31) with 2147483648.
  change (2 ^ 32) with 4294967296. intros Heq.
  rewrite <- (Zplus_mod_idemp_l x), <- (Zplus_mod_idemp_l y), Heq. done.
Qed.

Lemma wrap64_low_bits (x : Z) :
  wrap64 x `mod` 4294967296 = x `mod` 4294967296.
Proof.
  unfold wrap64. change (2 ^ 63) with 9223372036854775808.
  change (2 ^ 64) with 18446744073709551616.
  Z.to_euclidean_division_equations. lia.
Qed.

Lemma encoderune_replacement (r : Z) :
  -2147483648 ≤ r < 2147483648 →
  r < 0 ∨ utf8.MaxRune < r ∨ utf8.surrogateMin ≤ r ≤ utf8.surrogateMax →
  utf8.encoderune r = "�".
Proof.
  unfold utf8.MaxRune, utf8.surrogateMin, utf8.surrogateMax.
  intros Hrange Hbad. unfold utf8.encoderune.
  change (2 ^ 32) with 4294967296. cbv zeta.
  assert (r `mod` 4294967296 = if decide (r < 0) then r + 4294967296 else r)
    as ->.
  { case_decide; Z.to_euclidean_division_equations; lia. }
  unfold utf8.MaxRune, utf8.surrogateMin, utf8.surrogateMax.
  repeat case_decide; try lia; reflexivity.
Qed.

Lemma encoderune_length (r : Z) : (String.length (utf8.encoderune r) ≤ 4)%nat.
Proof. unfold utf8.encoderune. cbv zeta. repeat case_decide; simpl; lia. Qed.

(** X14. A generated request identifier is "req_" and one encoded
    code point, taken from the low 32 bits of the clock's nanoseconds:
    it has at most 8 bytes, it is the same again 2^32 nanoseconds later,
    and whenever those bits are not a Unicode scalar value it is
    "req_" followed by U+FFFD. *)
Theorem generateRequestID_coarse (now : time.Time) :
  generateRequestID (now + 2 ^ 32) = generateRequestID now ∧
  (String.length (generateRequestID now) ≤ 8)%nat ∧
  (let r := wrap32 (UnixNano now) in
   (0 ≤ r ≤ utf8.MaxRune ∧ ¬ (utf8.surrogateMin ≤ r ≤ utf8.surrogateMax)) ∨
   generateRequestID now = "req_�").
Proof.
  split; [|split].
  - unfold generateRequestID. do 2 f_equal. apply wrap32_low_bits.
    unfold UnixNano. rewrite !wrap64_low_bits.
    change (2 ^ 32) with 4294967296.
    Z.to_euclidean_division_equations. lia.
  - unfold generateRequestID.
    pose proof (encoderune_length (wrap32 (UnixNano now))).
    change (String.length ("req_" +:+ ?s)) with (4 + String.length s)%nat.
    lia.
  - cbv zeta. pose proof (wrap32_range (UnixNano now)) as Hrange.
    destruct (decide (0 ≤ wrap32 (UnixNano now) ≤ utf8.MaxRune ∧
                      ¬ (utf8.surrogateMin ≤ wrap32 (UnixNano now)
                         ≤ utf8.surrogateMax))) as [Hok|Hbad]; [by left|].
    right. unfold generateRequestID.
    rewrite encoderune_replacement; [done|done|].
    unfold utf8.MaxRune, utf8.surrogateMin, utf8.surrogateMax in *. lia.
Qed.

(** ** Security logging over a limiter *)



(** ** One bucket for each key *)

(** X1. The token-bucket handler works on the limiter of the
    request's key alone: the limiter of any other key is left as it was,
    and the context the handler leaves is the same for any two limiter
    maps that agree on the request's key. *)
Theorem TokenBucket_key_isolation (config : RateLimitConfig)
    (KeyFunc : gin.Context → string)
    (limiters limiters2 : gmap string rate.Limiter)
    (now : time.Time) (c : gin.Context) (k : string) :
  (k ≠ KeyFunc c →
   fst (TokenBucketRateLimit_handler config KeyFunc limiters now c) !! k
   = limiters !! k) ∧
  (limiters !! KeyFunc c = limiters2 !! KeyFunc c →
   snd (TokenBucketRateLimit_handler config KeyFunc limiters now c)
   = snd (TokenBucketRateLimit_handler config KeyFunc limiters2 now c)).
Proof.
  unfold TokenBucketRateLimit_handler. split.
  - intros Hk. destruct (skipsPath _ _); [done|].
    destruct (limiters !! KeyFunc c) as [limiter|];
      destruct (rate.Allow _ now) as [limiter1 [|]]; simpl;
      try destruct (rate.Reserve limiter1 now) as [limiter2 reservation];
      simpl; by rewrite ?lookup_insert_ne by done.
  - intros <-. destruct (skipsPath _ _); [done|].
    destruct (limiters !! KeyFunc c) as [limiter|];
      destruct (rate.Allow _ now) as [limiter1 [|]]; simpl;
      try destruct (rate.Reserve limiter1 now) as [limiter2 reservation];
      done.
Qed.

Lemma TokenBucket_key_isolation_witness :
  (let limiters : gmap string rate.Limiter :=
     {[ "5.6.7.8" := bucketOf bucketPolicy 0 sampleNow ]} in
   fst (TokenBucketRateLimit_handler bucketPolicy (keyFuncOf bucketPolicy)
          limiters sampleNow sampleRequest) !! "5.6.7.8"
   = limiters !! "5.6.7.8") ∧
  (let limiters : gmap string rate.Limiter :=
     {[ "5.6.7.8" := bucketOf bucketPolicy 0 sampleNow ]} in
   snd (TokenBucketRateLimit_handler bucketPolicy (keyFuncOf bucketPolicy)
          limiters sampleNow sampleRequest)
   = snd (TokenBucketRateLimit_handler bucketPolicy
            (keyFuncOf bucketPolicy) ∅ sampleNow sampleRequest)).
Proof.
  split; cbv zeta.
  - apply (proj1 (TokenBucket_key_isolation bucketPolicy
                    (keyFuncOf bucketPolicy)
                    {[ "5.6.7.8" := bucketOf bucketPolicy 0 sampleNow ]}
                    ∅ sampleNow sampleRequest "5.6.7.8")).
    vm_compute. discriminate.
  - apply (proj2 (TokenBucket_key_isolation bucketPolicy
                    (keyFuncOf bucketPolicy)
                    {[ "5.6.7.8" := bucketOf bucketPolicy 0 sampleNow ]}
                    ∅ sampleNow sampleRequest "5.6.7.8")).
    vm_compute. reflexivity.
Defined.

(** ** When a bucket lets a request through again *)



Section OneKeyDebt.
Variable config : RateLimitConfig.
Variable KeyFunc : gin.Context → string.
Variable c : gin.Context.
Hypothesis not_exempt : skipsPath (SkipPaths config) (gin.Path c) = false.
Hypothesis rate_range : 1 ≤ RequestsPerSecond config ≤ rate.token.
Hypothesis burst_range : 1 ≤ BurstSize config.




End OneKeyDebt.

(** ** Counter keys *)

(** A string with no colon in it. *)
Lemma pretty_N_char_not_colon (d : N) : pretty_N_char d ≠ ":"%char.
Proof. unfold pretty_N_char. by repeat case_match. Qed.

Lemma colon_free_cons (a : ascii) (s : string) :
  a ≠ ":"%char →
  (∀ x y, s ≠ x +:+ String ":" y) →
  ∀ x y, String a s ≠ x +:+ String ":" y.
Proof.
  intros Ha Hs [|b x] y; simpl; intros [= ? ?]; [done|]. by eapply Hs.
Qed.

Lemma pretty_N_go_colon_free (n : N) (s : string) :
  (∀ x y, s ≠ x +:+ String ":" y) →
  ∀ x y, pretty_N_go n s ≠ x +:+ String ":" y.
Proof.
  revert s. induction (N.lt_wf_0 n) as [n _ IH]. intros s Hs.
  destruct (decide (n = 0%N)) as [->|Hn].
  - by rewrite pretty_N_go_0.
  - rewrite pretty_N_go_step by lia. apply IH; [apply N.div_lt; lia|].
    apply colon_free_cons; [apply pretty_N_char_not_colon|done].
Qed.

Lemma Itoa_colon_free (i : Z) : ∀ x y, strconv.Itoa i ≠ x +:+ String ":" y.
Proof.
  assert (∀ x y, "" ≠ x +:+ String ":" y) as Hnil by (by intros [|??] ?).
  assert (∀ p : positive, ∀ x y, pretty p ≠ x +:+ String ":" y) as Hpos.
  { intros p. unfold pretty, pretty_positive, pretty, pretty_N.
    case_decide; [done|]. by apply pretty_N_go_colon_free. }
  unfold strconv.Itoa, pretty, pretty_Z. destruct i as [|p|p].
  - by apply colon_free_cons.
  - apply Hpos.
  - by apply colon_free_cons.
Qed.

Lemma split_at_last_colon (s1 s2 d1 d2 : string) :
  (∀ x y, d1 ≠ x +:+ String ":" y) →
  (∀ x y, d2 ≠ x +:+ String ":" y) →
  s1 +:+ ":" +:+ d1 = s2 +:+ ":" +:+ d2 → s1 = s2 ∧ d1 = d2.
Proof.
  intros Hd1 Hd2. revert s2.
  induction s1 as [|a s1 IH]; intros [|b s2]; simpl; intros Heq.
  - by simplify_eq.
  - injection Heq as _ Heq. by destruct (Hd1 s2 d2).
  - injection Heq as _ Heq. by destruct (Hd2 s1 d1).
  - injection Heq as Hab Heq. destruct (IH s2 Heq) as [Hs Hd].
    by subst.
Qed.

(** X6. Two requests are counted on the same counter exactly when they
    have the same partition key and their windows start in the same Unix
    second; for a window of a whole number of seconds, exactly when they
    have the same partition key and the same window. *)
Theorem counterKey_injective (config config' : RateLimitConfig)
    (now now' : time.Time) (c c' : gin.Context) :
  (counterKey config now c = counterKey config' now' c' ↔
   keyFuncOf config c = keyFuncOf config' c' ∧
   time.Unix (time.Truncate now (windowSizeOf config))
   = time.Unix (time.Truncate now' (windowSizeOf config'))) ∧
  (∀ seconds : Z,
     0 < seconds →
     windowSizeOf config = seconds * time.Second →
     windowSizeOf config' = seconds * time.Second →
     (counterKey config now c = counterKey config' now' c' ↔
      keyFuncOf config c = keyFuncOf config' c' ∧
      time.Truncate now (windowSizeOf config)
      = time.Truncate now' (windowSizeOf config'))).
Proof.
  assert (counterKey config now c = counterKey config' now' c' ↔
          keyFuncOf config c = keyFuncOf config' c' ∧
          time.Unix (time.Truncate now (windowSizeOf config))
          = time.Unix (time.Truncate now' (windowSizeOf config')))
    as Hkey.
  { unfold counterKey. cbv zeta. split.
    - intros Heq.
      apply split_at_last_colon in Heq as [Hk Hd];
        [|apply Itoa_colon_free..].
      split; [by simplify_eq/=|]. by apply (inj pretty) in Hd.
    - by intros [-> ->]. }
  split; [done|]. intros seconds Hpos Hws Hws'. rewrite Hkey.
  assert (∀ t : time.Time,
            time.Truncate t (seconds * time.Second)
            = (time.Unix (time.Truncate t (seconds * time.Second))
               + time.unixToInternal) * time.Second) as Hwhole.
  { intros t. unfold time.Truncate, time.Unix, time.Add.
    change time.Second with 1000000000.
    rewrite decide_False by lia.
    pose proof (Z.div_mod t (seconds * 1000000000)) as Hdm.
    replace (t + - (t `mod` (seconds * 1000000000)))
      with (seconds * (t `div` (seconds * 1000000000)) * 1000000000)
      by lia.
    rewrite Z.div_mul by done. lia. }
  rewrite Hws, Hws'. split; intros [Hk Hw]; (split; [done|]).
  - by rewrite (Hwhole now), (Hwhole now'), Hw.
  - by rewrite Hw.
Qed.

Lemma counterKey_injective_witness :
  counterKey windowPolicy sampleNow sampleRequest
  = counterKey windowPolicy (sampleNow + 59 * time.Second) sampleRequest ↔
  keyFuncOf windowPolicy sampleRequest = keyFuncOf windowPolicy sampleRequest ∧
  time.Truncate sampleNow (windowSizeOf windowPolicy)
  = time.Truncate (sampleNow + 59 * time.Second) (windowSizeOf windowPolicy).
Proof.
  apply (proj2 (counterKey_injective windowPolicy windowPolicy sampleNow
                  (sampleNow + 59 * time.Second) sampleRequest sampleRequest)
           60).
  - lia.
  - reflexivity.
  - reflexivity.
Defined.

(** With a window of half a second, the two windows of one second are
    counted on one counter. *)
Example half_second_windows_share_a_counter :
  let config :=
    {| RequestsPerSecond := 0; BurstSize := 0;
       WindowSize := 500 * time.Millisecond; MaxRequests := 2;
       KeyFunc := None; SkipPaths := []; UseRedis := true;
       RedisClient := Some localRedis |} in
  time.Truncate sampleNow (windowSizeOf config)
  ≠ time.Truncate (sampleNow + 600 * time.Millisecond) (windowSizeOf config) ∧
  counterKey config sampleNow sampleRequest
  = counterKey config (sampleNow + 600 * time.Millisecond) sampleRequest.
Proof. cbv zeta. split; [vm_compute; discriminate|vm_compute; reflexivity]. Qed.

(** ** The headers of a counted request *)

Lemma append_nonempty (s buf : string) : buf ≠ "" → s +:+ buf ≠ "".
Proof. intros Hbuf. destruct s; [done|]. simpl. discriminate. Qed.

Lemma fmtFrac_loop_nonempty (prec : nat) :
  ∀ (v : Z) (print : bool) (buf : string),
    buf ≠ "" → (time.fmtFrac_loop prec v print buf).1.1 ≠ "".
Proof.
  induction prec as [|prec IH]; intros v print buf Hbuf; simpl; [done|].
  apply IH. by destruct (print || negb (v `mod` 10 =? 0)).
Qed.

Lemma fmtFrac_nonempty (buf : string) (v : Z) (prec : nat) :
  buf ≠ "" → (time.fmtFrac buf v prec).1 ≠ "".
Proof.
  intros Hbuf. unfold time.fmtFrac.
  pose proof (fmtFrac_loop_nonempty prec v false buf Hbuf) as Hloop.
  destruct (time.fmtFrac_loop prec v false buf) as [[buf' v'] print].
  simpl in *. by destruct print.
Qed.

Lemma Duration_String_nonempty (d : time.Duration) : time.String d ≠ "".
Proof.
  unfold time.String. cbv zeta.
  assert (∀ buf v, buf ≠ "" → time.fmtInt buf v ≠ "") as Hint.
  { intros buf v Hbuf. unfold time.fmtInt. by apply append_nonempty. }
  assert (∀ buf v prec,
            buf ≠ "" →
            (let '(buf, u) := time.fmtFrac buf v prec in time.fmtInt buf u)
            ≠ "") as Hfrac.
  { intros buf v prec Hbuf.
    pose proof (fmtFrac_nonempty buf v prec Hbuf).
    destruct (time.fmtFrac buf v prec). by apply Hint. }
  destruct (bool_decide (d < 0)); [done|].
  repeat case_decide; try done; try (by apply Hint); try (by apply Hfrac).
  - pose proof (fmtFrac_nonempty "s" d 9) as Hs.
    destruct (time.fmtFrac "s" d 9) as [buf u]. case_decide.
    + case_decide; by apply Hint.
    + apply Hint. by apply Hs.
Qed.

(** X7. Every request a sliding-window or fixed-window limiter counts,
    admitted or rejected, leaves with the four headers set:
    X-RateLimit-Limit is [MaxRequests], X-RateLimit-Reset the Unix time
    of the window's end, X-RateLimit-Window the window as a duration
    string, X-RateLimit-Remaining a number; and for a window that is not
    negative the reset time is not before the request's own Unix
    time. *)
Theorem counted_request_headers {R : Type} `{!cache.Backend R}
    (config : RateLimitConfig)
    (handler : R → time.Time → gin.Context → R * gin.Context)
    (r r1 : R) (now : time.Time) (c : gin.Context) (count : Z) :
  SlidingWindowRateLimit config = Done handler ∨
  FixedWindowRateLimit config = Done handler →
  skipsPath (SkipPaths config) (gin.Path c) = false →
  cache.IncrementBy r (counterKey config now c) 1 = (r1, (count, None)) →
  let headers := gin.Headers (snd (handler r now c)) in
  let reset :=
    time.Unix (time.Add (time.Truncate now (windowSizeOf config))
                 (windowSizeOf config)) in
  headers !! "X-RateLimit-Limit" = Some (strconv.Itoa (MaxRequests config)) ∧
  headers !! "X-RateLimit-Reset" = Some (strconv.Itoa reset) ∧
  headers !! "X-RateLimit-Window" = Some (time.String (windowSizeOf config)) ∧
  (∃ remaining : Z,
     headers !! "X-RateLimit-Remaining" = Some (strconv.Itoa remaining)) ∧
  (0 ≤ WindowSize config → time.Unix now ≤ reset).
Proof.
  intros [_ ->]%constructed_handler Hskip Hincr. cbv zeta.
  rewrite (Fixed_handler_counted config r now c r1 count Hskip Hincr).
  cbv zeta.
  assert (∀ remaining,
    gin.Headers (windowHeaders config (windowSizeOf config)
                   (time.Truncate now (windowSizeOf config)) remaining c)
      !! "X-RateLimit-Limit" = Some (strconv.Itoa (MaxRequests config)))
    as Hlimit.
  { intros remaining. unfold windowHeaders. cbv zeta.
    rewrite !Header_lookup_ne by done.
    apply Header_lookup_eq, Itoa_nonempty. }
  assert (∀ remaining,
    gin.Headers (windowHeaders config (windowSizeOf config)
                   (time.Truncate now (windowSizeOf config)) remaining c)
      !! "X-RateLimit-Window" = Some (time.String (windowSizeOf config)))
    as Hwindow.
  { intros remaining. unfold windowHeaders. cbv zeta.
    apply Header_lookup_eq, Duration_String_nonempty. }
  assert (0 ≤ WindowSize config →
          time.Unix now
          ≤ time.Unix (time.Add (time.Truncate now (windowSizeOf config))
                         (windowSizeOf config))) as Hreset.
  { intros Hnn.
    assert (0 < windowSizeOf config) as Hpos.
    { unfold windowSizeOf. case_decide; [done|lia]. }
    pose proof (window_end_after_now now _ Hpos) as Hd. cbv zeta in Hd.
    unfold time.Unix. change time.Second with 1000000000.
    Z.to_euclidean_division_equations. lia. }
  case_decide; cbn [snd];
    rewrite ?Headers_Abort_JSON, ?Headers_Next, ?Hlimit, ?Hwindow,
      ?windowHeaders_Reset, ?windowHeaders_Remaining by done;
    (split; [done|]); (split; [done|]); (split; [done|]);
    (split; [by eexists|done]).
Qed.

Lemma counted_request_headers_witness :
  let headers :=
    gin.Headers
      (snd (SlidingWindowRateLimit_handler windowPolicy
              (keyFuncOf windowPolicy) (windowSizeOf windowPolicy)
              emptyStore (sampleNow + 5) sampleRequest)) in
  let reset :=
    time.Unix (time.Add (time.Truncate (sampleNow + 5)
                           (windowSizeOf windowPolicy))
                 (windowSizeOf windowPolicy)) in
  headers !! "X-RateLimit-Limit"
  = Some (strconv.Itoa (MaxRequests windowPolicy)) ∧
  headers !! "X-RateLimit-Reset" = Some (strconv.Itoa reset) ∧
  headers !! "X-RateLimit-Window"
  = Some (time.String (windowSizeOf windowPolicy)) ∧
  (∃ remaining : Z,
     headers !! "X-RateLimit-Remaining" = Some (strconv.Itoa remaining)) ∧
  (0 ≤ WindowSize windowPolicy → time.Unix (sampleNow + 5) ≤ reset).
Proof.
  apply (counted_request_headers (R:=MemStore) windowPolicy
           (SlidingWindowRateLimit_handler windowPolicy
              (keyFuncOf windowPolicy) (windowSizeOf windowPolicy))
           emptyStore
           (fst (cache.IncrementBy emptyStore
                   "ratelimit:1.2.3.4:1764403200" 1))
           (sampleNow + 5) sampleRequest 1).
  - left. reflexivity.
  - reflexivity.
  - vm_compute. reflexivity.
Defined.

(** ** Keys by caller *)

(** X9. [UserKeyFunc] separates callers by user id and
    [TenantKeyFunc] by tenant id: two requests that carry an id get the
    same key exactly when the ids are equal, whatever their client IPs;
    a user key is never a tenant key; and a request without an id (or
    with an empty one) is keyed by its client IP, as by
    [DefaultKeyFunc]. *)
Theorem key_functions_separate_callers (c c' : gin.Context) :
  (GetUserIDFromContext c ≠ "" → GetUserIDFromContext c' ≠ "" →
   (UserKeyFunc c = UserKeyFunc c' ↔
    GetUserIDFromContext c = GetUserIDFromContext c')) ∧
  (GetTenantIDFromContext c ≠ "" → GetTenantIDFromContext c' ≠ "" →
   (TenantKeyFunc c = TenantKeyFunc c' ↔
    GetTenantIDFromContext c = GetTenantIDFromContext c')) ∧
  (GetUserIDFromContext c ≠ "" → GetTenantIDFromContext c' ≠ "" →
   UserKeyFunc c ≠ TenantKeyFunc c') ∧
  (GetUserIDFromContext c = "" → UserKeyFunc c = DefaultKeyFunc c) ∧
  (GetTenantIDFromContext c = "" → TenantKeyFunc c = DefaultKeyFunc c).
Proof.
  unfold UserKeyFunc, TenantKeyFunc, DefaultKeyFunc. cbv zeta.
  split; [|split; [|split; [|split]]].
  - intros Hu Hu'. rewrite !decide_True by done. split.
    + intros Heq. by simplify_eq/=.
    + by intros ->.
  - intros Ht Ht'. rewrite !decide_True by done. split.
    + intros Heq. by simplify_eq/=.
    + by intros ->.
  - intros Hu Ht. rewrite !decide_True by done. simpl. discriminate.
  - intros Hu. by rewrite decide_False by (by intros ?).
  - intros Ht. by rewrite decide_False by (by intros ?).
Qed.

Lemma key_functions_separate_callers_witness :
  let alice :=
    {| gin.Path := "/api"; gin.ClientIP := "10.0.0.1"; gin.claims := None;
       gin.user_id := Some "alice"; gin.tenant_id := Some "acme";
       gin.Headers := ∅; gin.Status := None; gin.Body := None;
       gin.Aborted := false; gin.Nexts := 0 |} in
  let bob :=
    {| gin.Path := "/api"; gin.ClientIP := "10.0.0.1"; gin.claims := None;
       gin.user_id := Some "bob"; gin.tenant_id := Some "acme";
       gin.Headers := ∅; gin.Status := None; gin.Body := None;
       gin.Aborted := false; gin.Nexts := 0 |} in
  (UserKeyFunc alice = UserKeyFunc bob ↔
   GetUserIDFromContext alice = GetUserIDFromContext bob) ∧
  (TenantKeyFunc alice = TenantKeyFunc bob ↔
   GetTenantIDFromContext alice = GetTenantIDFromContext bob) ∧
  UserKeyFunc alice ≠ TenantKeyFunc bob ∧
  UserKeyFunc sampleRequest = DefaultKeyFunc sampleRequest ∧
  TenantKeyFunc sampleRequest = DefaultKeyFunc sampleRequest.
Proof.
  cbv zeta. split; [|split; [|split; [|split]]].
  - by apply (proj1 (key_functions_separate_callers _ _)).
  - by apply (proj1 (proj2 (key_functions_separate_callers _ _))).
  - by apply (proj1 (proj2 (proj2 (key_functions_separate_callers _ _)))).
  - by apply (proj1 (proj2 (proj2 (proj2
                (key_functions_separate_callers sampleRequest
                   sampleRequest))))).
  - by apply (proj2 (proj2 (proj2 (proj2
                (key_functions_separate_callers sampleRequest
                   sampleRequest))))).
Defined.

(** ** A window's quota, on a store that counts *)






(** ** Which policy a caller gets *)

Lemma first_configured_role (config : gmap string RateLimitConfig)
    (roles : list string) :
  (∀ role, role ∈ roles → config !! role = None) ∨
  ∃ (before after : list string) (role : string) (cfg : RateLimitConfig),
    roles = before ++ role :: after ∧
    (∀ role', role' ∈ before → config !! role' = None) ∧
    config !! role = Some cfg.
Proof.
  induction roles as [|role rest IH].
  - left. by intros ? ?%elem_of_nil.
  - destruct (config !! role) as [cfg|] eqn:Hrole.
    + right. exists [], rest, role, cfg.
      split; [done|]. split; [|done]. by intros ? ?%elem_of_nil.
    + destruct IH as [Hnone|(before & after & role' & cfg & -> & Hb & Hr)].
      * left. intros ? [->|?]%elem_of_cons; [done|by apply Hnone].
      * right. exists (role :: before), after, role', cfg.
        split; [done|]. split; [|done].
        intros ? [->|?]%elem_of_cons; [done|by apply Hb].
Qed.

(** X5. The policy the per-principal handler settles on is decided
    by the first of the caller's roles that has a configured policy: that
    policy when its [MaxRequests] is not zero, the default policy when it
    is zero.  A caller without claims, or none of whose roles has a
    configured policy, gets the default policy. *)
Theorem selectConfig_decides (config : gmap string RateLimitConfig)
    (defaultConfig : RateLimitConfig) (c : gin.Context) :
  (match GetClaimsFromContext c with
   | Some claims => ∀ role, role ∈ Roles claims → config !! role = None
   | None => True
   end ∧
   selectConfig config defaultConfig c = defaultConfig) ∨
  ∃ (claims : JWTClaims) (before after : list string) (role : string)
    (cfg : RateLimitConfig),
    GetClaimsFromContext c = Some claims ∧
    Roles claims = before ++ role :: after ∧
    (∀ role', role' ∈ before → config !! role' = None) ∧
    config !! role = Some cfg ∧
    selectConfig config defaultConfig c =
    if decide (MaxRequests cfg = 0) then defaultConfig else cfg.
Proof.
  unfold selectConfig.
  destruct (GetClaimsFromContext c) as [claims|] eqn:Hclaims;
    [|left; by split].
  destruct (first_configured_role config (Roles claims))
    as [Hnone|(before & after & role & cfg & Hroles & Hb & Hr)].
  - left. split; [done|]. cbv zeta. by rewrite rolesLoop_no_match.
  - right. exists claims, before, after, role, cfg.
    split; [done|]. split; [done|]. split; [done|]. split; [done|].
    cbv zeta. rewrite Hroles.
    by rewrite (rolesLoop_first_match _ _ _ _ _ _ Hb Hr).
Qed.

(** ** The properties above on sample inputs *)


Lemma PerUser_bucket_admits_witness :
  PerUserRateLimit_handler ∅ bucketPolicy emptyStore sampleNow sampleRequest =
  Done (emptyStore,
        gin.Next (gin.Header sampleRequest "X-RateLimit-Limit"
                    (strconv.Itoa
                       (RequestsPerSecond
                          (selectConfig ∅ bucketPolicy sampleRequest))))).
Proof.
  apply (PerUser_bucket_admits (R:=MemStore) ∅ bucketPolicy emptyStore
           sampleNow sampleRequest).
  - reflexivity.
  - vm_compute. discriminate.
  - vm_compute. discriminate.
  - reflexivity.
Defined.

(** ** The limiter map only grows *)

#[local] Set Warnings "-clear-no-such-hyp".

Lemma TokenBucket_dom_step (config : RateLimitConfig)
    (KeyFunc : gin.Context → string) (limiters : gmap string rate.Limiter)
    (now : time.Time) (c : gin.Context) :
  dom (fst (TokenBucketRateLimit_handler config KeyFunc limiters now c))
  = if skipsPath (SkipPaths config) (gin.Path c) then dom limiters
    else {[ KeyFunc c ]} ∪ dom limiters.
Proof.
  unfold TokenBucketRateLimit_handler. destruct (skipsPath _ _); [done|].
  destruct (limiters !! KeyFunc c) as [limiter|] eqn:Hkey;
    destruct (rate.Allow _ now) as [limiter1 [|]]; simpl;
    try destruct (rate.Reserve limiter1 now) as [limiter2 reservation];
    simpl; rewrite ?dom_insert_L; set_solver.
Qed.

(** X3. The token-bucket handler never drops a limiter: after any
    sequence of requests the keys of its limiter map are the keys it had
    before together with the keys of all the requests that were not
    exempt. *)
Theorem TokenBucket_limiters_grow (config : RateLimitConfig)
    (KeyFunc : gin.Context → string)
    (reqs : list (time.Time * gin.Context))
    (limiters : gmap string rate.Limiter) :
  dom (fst (serve (TokenBucketRateLimit_handler config KeyFunc) limiters reqs))
  = dom limiters ∪
    list_to_set
      ((λ req, KeyFunc req.2) <$>
       filter (λ req, skipsPath (SkipPaths config) (gin.Path req.2) = false)
         reqs).
Proof.
  revert limiters. induction reqs as [|[now c] rest IH]; intros limiters.
  - simpl. set_solver.
  - cbn [serve].
    pose proof (TokenBucket_dom_step config KeyFunc limiters now c) as Hstep.
    destruct (TokenBucketRateLimit_handler config KeyFunc limiters now c)
      as [limiters1 c1].
    specialize (IH limiters1).
    destruct (serve _ limiters1 rest) as [limiters2 cs].
    simpl in *. rewrite IH, Hstep. rewrite filter_cons. simpl.
    destruct (skipsPath (SkipPaths config) (gin.Path c)) eqn:Hskip.
    + by rewrite decide_False by done.
    + rewrite decide_True by done. simpl. set_solver.
Qed.
